(** * Exchange-rate console client: a shallow embedding of exchange_rate_app.py

    The program asks for a number of days, downloads one NBP rate table per
    day concurrently, prints the EUR and USD rows of every day and then lets
    the user look up further currencies in a Y/N loop.

    The embedding keeps the shape of the Python source: every function of the
    source is a definition of the same name in a small console monad [M]
    whose runs record what was printed, what was asked on the console and
    which URLs were requested.

    - The console input is the list of lines still to be read.
    - A date is a day number (as [date.toordinal]); its text is given by the
      runtime, and subtracting a [timedelta] of [i] days subtracts [i].
    - A response body is typed after the format of the NBP service: a list of
      tables, each with a list of rates.  Bodies of another shape are outside
      the model.
    - [asyncio.gather] takes the order in which its tasks complete as an
      argument, so that statements can quantify over every such order.
    - [str.upper] and [int] belong to the interpreter and are parameters of
      the program, like the text of a date and the iteration order of a set.
    - The basic display is given a second time over a store of mutable
      objects, where a change of the result list by the display could be
      observed. *)

From Stdlib Require Import ZArith Ascii String List Lia.
From stdpp Require Import base strings list gmap pretty.

Open Scope string_scope.
Open Scope list_scope.

(** ** Python strings *)

Module PyStr.

(** Upper-casing of the ASCII letters; every other byte is unchanged.  On a
    string of ASCII characters this is what [str.upper] gives. *)
Definition ascii_upper_char (c : ascii) : ascii :=
  let n := nat_of_ascii c in
  if ((97 <=? n) && (n <=? 122))%nat then ascii_of_nat (n - 32) else c.

Fixpoint ascii_upper (s : string) : string :=
  match s with
  | EmptyString => EmptyString
  | String c s' => String (ascii_upper_char c) (ascii_upper s')
  end.

(** [len] of a str counts code points.  Strings are UTF-8 byte sequences
    here, so every byte that is not a continuation byte (10xxxxxx, that is
    128..191) starts one code point. *)
Definition starts_code_point (c : ascii) : bool :=
  let n := nat_of_ascii c in
  ((n <? 128) || (191 <? n))%nat.

Fixpoint len (s : string) : nat :=
  match s with
  | EmptyString => 0
  | String c s' => (if starts_code_point c then 1 else 0) + len s'
  end.

Fixpoint spaces (n : nat) : string :=
  match n with
  | O => EmptyString
  | S n' => String " " (spaces n')
  end.

(** [format(s, "<width>")] for a str: left aligned, padded with spaces up to
    [width] code points, never truncated. *)
Definition ljust (width : nat) (s : string) : string :=
  s +:+ spaces (width - len s).

(** [", ".join(l)] and friends. *)
Definition join (sep : string) (l : list string) : string :=
  String.concat sep l.

(** A string of ASCII characters only. *)
Fixpoint is_ascii (s : string) : bool :=
  match s with
  | EmptyString => true
  | String c s' => (nat_of_ascii c <? 128)%nat && is_ascii s'
  end.

End PyStr.

(** ** Data model

    The JSON body of one day is an array holding one table object whose
    field [rates] is an array of [{currency, code, mid}] objects. *)

(** A JSON number.  The program only prints [mid]; a float is kept as the
    text [str] gives for it. *)
Inductive number :=
| Int (z : Z)
| Float (text : string).

Definition str_number (x : number) : string :=
  match x with
  | Int z => pretty z
  | Float text => text
  end.

Record CurrencyRate := mkRate {
  currency : string;
  code : string;
  mid : number
}.

Record Table := mkTable {
  rates : list CurrencyRate
}.

(** What [get_rates] returns for one day: [None] when nothing was published
    (HTTP 404), otherwise the parsed array of tables, which may be empty.
    The displays only read such a value (they enumerate, index and iterate),
    so it is passed around as a plain value. *)
Definition RateTable : Type := option (list Table).

(** One slot per requested day, most recent first. *)
Definition ResultSet : Type := list RateTable.

(** ** Exceptions, console and network events *)

Inductive exn :=
| ValueError (msg : string)
| RuntimeError (msg : string)
| ClientError (msg : string)    (* transport or decoding failure inside aiohttp *)
| TypeError
| IndexError
| EOFError.

Record response := mkResponse {
  status : Z;
  json : exn + list Table       (* [response.json()]: it raises, or gives the body *)
}.

Inductive event :=
| Print (line : string)         (* [print(line)] *)
| Prompt (text : string)        (* the prompt written by [input(text)] *)
| Get (url : string).           (* one HTTP GET launched *)

Inductive outcome (A : Type) :=
| Ret (a : A)
| Raise (e : exn)
| Unfinished.                   (* the computation has not returned *)

Arguments Ret {A} a.
Arguments Raise {A} e.
Arguments Unfinished {A}.

Record run (A : Type) := Run {
  res : outcome A;
  out : list event;
  rest : list string             (* console lines not read yet *)
}.

Arguments Run {A} res out rest.
Arguments res {A} r.
Arguments out {A} r.
Arguments rest {A} r.

(** A computation reads console lines and produces a run. *)
Definition M (A : Type) : Type := list string -> run A.

Definition ret {A} (a : A) : M A :=
  fun stdin => Run (Ret a) [] stdin.

Definition raise {A} (e : exn) : M A :=
  fun stdin => Run (Raise e) [] stdin.

Definition bind {A B} (m : M A) (f : A -> M B) : M B :=
  fun stdin =>
    let r := m stdin in
    match res r with
    | Ret a => let r' := f a (rest r) in Run (res r') (out r ++ out r') (rest r')
    | Raise e => Run (Raise e) (out r) (rest r)
    | Unfinished => Run Unfinished (out r) (rest r)
    end.

Notation "x <- m ;; k" := (bind m (fun x => k))
  (at level 100, m at next level, right associativity).
Notation "m ;; k" := (bind m (fun _ => k))
  (at level 100, right associativity).

Definition print (line : string) : M unit :=
  fun stdin => Run (Ret tt) [Print line] stdin.

(** [input(text)]: the prompt is written, then one line is read; at the end
    of the input Python raises [EOFError]. *)
Definition input (text : string) : M string :=
  fun stdin =>
    match stdin with
    | [] => Run (Raise EOFError) [Prompt text] []
    | line :: stdin' => Run (Ret line) [Prompt text] stdin'
    end.

(** [for x in l: body x] *)
Fixpoint for_each {A} (l : list A) (body : A -> M unit) : M unit :=
  match l with
  | [] => ret tt
  | x :: l' => body x ;; for_each l' body
  end.

(** [for i, x in enumerate(l, start): body i x] *)
Fixpoint for_enumerate {A} (start : Z) (l : list A) (body : Z -> A -> M unit) : M unit :=
  match l with
  | [] => ret tt
  | x :: l' => body start x ;; for_enumerate (start + 1) l' body
  end.

(** [try: body except ValueError as e: handler e else: orelse] *)
Definition try_except_ValueError {A B} (body : M A) (handler : string -> M B)
    (orelse : A -> M B) : M B :=
  fun stdin =>
    let r := body stdin in
    match res r with
    | Ret a => let r' := orelse a (rest r) in Run (res r') (out r ++ out r') (rest r')
    | Raise (ValueError msg) =>
        let r' := handler msg (rest r) in Run (res r') (out r ++ out r') (rest r')
    | Raise e => Run (Raise e) (out r) (rest r)
    | Unfinished => Run Unfinished (out r) (rest r)
    end.

(** [range(n)] *)
Definition range (n : Z) : list Z :=
  map Z.of_nat (seq 0 (Z.to_nat n)).

(** ** [asyncio.gather]

    Every task is started; the tasks then finish in some order [sched] (task
    indices in completion order).  A finished task stores its value in the
    slot of its own index; the first task to finish with an exception makes
    the [await] raise it.  When the schedule is over and some slot is still
    empty the [await] has not returned. *)
Fixpoint join_tasks {A} (outs : list (outcome A)) (slots : list (option A))
    (sched : list nat) : outcome (list A) :=
  match sched with
  | [] =>
      match mapM id slots with
      | Some values => Ret values
      | None => Unfinished
      end
  | k :: sched' =>
      match outs !! k with
      | Some (Ret a) => join_tasks outs (<[k := Some a]> slots) sched'
      | Some (Raise e) => Raise e
      | _ => join_tasks outs slots sched'
      end
  end.

(** The tasks of this program never read the console, so the console input
    is the same before and after the join. *)
Definition gather {A} (tasks : list (M A)) (sched : list nat) : M (list A) :=
  fun stdin =>
    let runs := map (fun task => task stdin) tasks in
    Run (join_tasks (map res runs) (replicate (length tasks) None) sched)
        (concat (map out runs))
        stdin.

(** ** Python objects

    The result list is an object that the caller and the displays share.
    Here a list or a dict lives in a store and is reached through a
    reference, so that a write by one user is seen by all.  The objects are
    those of a ResultSet: lists, table dicts (their ["rates"] entry) and rate
    dicts (their three entries).  An operation applied to an object of
    another kind than a ResultSet has there raises [TypeError]. *)
Inductive value :=
| VNone
| VRef (l : nat).

Inductive object :=
| OList (items : list value)
| OTable (rates_entry : value)
| ORate (cur : CurrencyRate).

Definition heap : Type := nat -> object.

Record srun (A : Type) := SRun {
  sres : outcome A;
  sout : list event;
  sheap : heap
}.

Arguments SRun {A} sres sout sheap.
Arguments sres {A} s.
Arguments sout {A} s.
Arguments sheap {A} s.

(** A computation over the store. *)
Definition SM (A : Type) : Type := heap -> srun A.

Definition sret {A} (a : A) : SM A :=
  fun h => SRun (Ret a) [] h.

Definition sraise {A} (e : exn) : SM A :=
  fun h => SRun (Raise e) [] h.

Definition sbind {A B} (m : SM A) (f : A -> SM B) : SM B :=
  fun h =>
    let r := m h in
    match sres r with
    | Ret a => let r' := f a (sheap r) in SRun (sres r') (sout r ++ sout r') (sheap r')
    | Raise e => SRun (Raise e) (sout r) (sheap r)
    | Unfinished => SRun Unfinished (sout r) (sheap r)
    end.

Notation "x <~ m ;; k" := (sbind m (fun x => k))
  (at level 100, m at next level, right associativity).
Notation "m ;;; k" := (sbind m (fun _ => k))
  (at level 100, right associativity).

Definition sprint (line : string) : SM unit :=
  fun h => SRun (Ret tt) [Print line] h.

(** Reading and writing the object behind a reference. *)
Definition load (l : nat) : SM object :=
  fun h => SRun (Ret (h l)) [] h.

Definition store (l : nat) (o : object) : SM unit :=
  fun h => SRun (Ret tt) [] (fun l' => if Nat.eqb l' l then o else h l').

(** The items of a list object. *)
Definition list_items (v : value) : SM (list value) :=
  match v with
  | VNone => sraise TypeError
  | VRef l =>
      o <~ load l ;;
      match o with
      | OList items => sret items
      | _ => sraise TypeError
      end
  end.

(** Truth value: [None] and the empty list are false, a dict of a ResultSet
    is never empty. *)
Definition truth (v : value) : SM bool :=
  match v with
  | VNone => sret false
  | VRef l =>
      o <~ load l ;;
      match o with
      | OList [] => sret false
      | _ => sret true
      end
  end.

(** [v != []] *)
Definition ne_empty (v : value) : SM bool :=
  match v with
  | VNone => sret true
  | VRef l =>
      o <~ load l ;;
      match o with
      | OList [] => sret false
      | _ => sret true
      end
  end.

(** [v[0]] *)
Definition item0 (v : value) : SM value :=
  items <~ list_items v ;;
  match items with
  | [] => sraise IndexError
  | x :: _ => sret x
  end.

(** [v["rates"]] *)
Definition rates_of (v : value) : SM value :=
  match v with
  | VNone => sraise TypeError
  | VRef l =>
      o <~ load l ;;
      match o with
      | OTable r => sret r
      | _ => sraise TypeError
      end
  end.

(** The entries [currency], [code] and [mid] of a rate dict. *)
Definition entries_of (v : value) : SM CurrencyRate :=
  match v with
  | VNone => sraise TypeError
  | VRef l =>
      o <~ load l ;;
      match o with
      | ORate cur => sret cur
      | _ => sraise TypeError
      end
  end.

(** The loops run over the items the list has when the loop starts; the
    bodies below write nothing, so these are the items of the live list. *)
Fixpoint sfor_each {A} (l : list A) (body : A -> SM unit) : SM unit :=
  match l with
  | [] => sret tt
  | x :: l' => body x ;;; sfor_each l' body
  end.

Fixpoint sfor_enumerate {A} (start : Z) (l : list A) (body : Z -> A -> SM unit) : SM unit :=
  match l with
  | [] => sret tt
  | x :: l' => body start x ;;; sfor_enumerate (start + 1) l' body
  end.

(** A store holds a typed value behind a reference. *)
Definition holds_rate (h : heap) (v : value) (cur : CurrencyRate) : Prop :=
  exists l, v = VRef l /\ h l = ORate cur.

Definition holds_table (h : heap) (v : value) (table : Table) : Prop :=
  exists l r lr items,
    v = VRef l /\ h l = OTable r /\
    r = VRef lr /\ h lr = OList items /\ Forall2 (holds_rate h) items (rates table).

Definition holds_slot (h : heap) (v : value) (slot : RateTable) : Prop :=
  match slot with
  | None => v = VNone
  | Some tables =>
      exists l items, v = VRef l /\ h l = OList items /\ Forall2 (holds_table h) items tables
  end.

Definition holds_results (h : heap) (v : value) (results : ResultSet) : Prop :=
  exists l items, v = VRef l /\ h l = OList items /\ Forall2 (holds_slot h) items results.

(** ** A concrete runtime, used to run the program on examples *)

Module Demo.

Local Open Scope Z_scope.

(** Day number (as [date.toordinal]) to year, month, day in the proleptic
    Gregorian calendar. *)
Definition civil (ordinal : Z) : Z * Z * Z :=
  let z := ordinal - 719163 + 719468 in
  let era := z / 146097 in
  let doe := z - era * 146097 in
  let yoe := (doe - doe / 1460 + doe / 36524 - doe / 146096) / 365 in
  let doy := doe - (365 * yoe + yoe / 4 - yoe / 100) in
  let mp := (5 * doy + 2) / 153 in
  let d := doy - (153 * mp + 2) / 5 + 1 in
  let m := if mp <? 10 then mp + 3 else mp - 9 in
  let y := yoe + era * 400 + (if m <=? 2 then 1 else 0) in
  (y, m, d).

Definition pad2 (n : Z) : string :=
  if n <? 10 then "0" +:+ pretty n else pretty n.

Definition pad4 (n : Z) : string :=
  if n <? 10 then "000" +:+ pretty n
  else if n <? 100 then "00" +:+ pretty n
  else if n <? 1000 then "0" +:+ pretty n
  else pretty n.

Definition isoformat (ordinal : Z) : string :=
  let '(y, m, d) := civil ordinal in
  pad4 y +:+ "-" +:+ pad2 m +:+ "-" +:+ pad2 d.

(** 2024-03-02, a Saturday. *)
Definition today : Z := 738947.

Definition set_order (s : gset string) : list string := elements s.

(** An [int(s)] for the examples, on lines of ASCII characters: white space
    (tab, line feed, vertical tab, form feed, carriage return, space) around
    the literal is dropped, one sign is allowed, and the digits may be
    grouped by single underscores. *)
Definition is_space (c : ascii) : bool :=
  let n := nat_of_ascii c in
  (((9 <=? n) && (n <=? 13)) || (n =? 32))%nat.

Definition digit_of (c : ascii) : option Z :=
  let n := nat_of_ascii c in
  if ((48 <=? n) && (n <=? 57))%nat then Some (Z.of_nat (n - 48)) else None.

Fixpoint lstrip (l : list ascii) : list ascii :=
  match l with
  | [] => []
  | c :: l' => if is_space c then lstrip l' else l
  end.

Definition strip (l : list ascii) : list ascii :=
  rev (lstrip (rev (lstrip l))).

Fixpoint digits (acc : Z) (after_digit : bool) (l : list ascii) : option Z :=
  match l with
  | [] => if after_digit then Some acc else None
  | c :: l' =>
      match digit_of c with
      | Some d => digits (10 * acc + d) true l'
      | None =>
          if Ascii.eqb c "_" && after_digit then digits acc false l' else None
      end
  end.

Definition parse_int (s : string) : option Z :=
  match strip (list_ascii_of_string s) with
  | "-"%char :: l => Z.opp <$> digits 0 false l
  | "+"%char :: l => digits 0 false l
  | l => digits 0 false l
  end.

Definition repr (s : string) : string := "'" +:+ s +:+ "'".

Definition int_str (s : string) : string + Z :=
  match parse_int s with
  | Some z => inr z
  | None => inl ("invalid literal for int() with base 10: " +:+ repr s)
  end.

Definition upper (s : string) : string := PyStr.ascii_upper s.

Definition eur : CurrencyRate := mkRate "euro" "EUR" (Float "4.3").
Definition usd : CurrencyRate := mkRate "dolar amerykański" "USD" (Int 4).
Definition gbp : CurrencyRate := mkRate "funt szterling" "GBP" (Float "5.0451").
Definition chf : CurrencyRate := mkRate "frank szwajcarski" "CHF" (Float "4.5123").

Definition table_a : list Table := [mkTable [usd; eur; chf; gbp]].

(** Tables were published on 2024-03-01 and 2024-02-29, nothing on the
    Saturday; the server fails for 2024-02-28. *)
Definition http_get (url : string) : exn + response :=
  if String.eqb url "https://api.nbp.pl/api/exchangerates/tables/a/2024-03-02?format=json"
  then inr (mkResponse 404 (inl (ClientError "no body")))
  else if String.eqb url "https://api.nbp.pl/api/exchangerates/tables/a/2024-03-01?format=json"
  then inr (mkResponse 200 (inr table_a))
  else if String.eqb url "https://api.nbp.pl/api/exchangerates/tables/a/2024-02-29?format=json"
  then inr (mkResponse 200 (inr table_a))
  else inr (mkResponse 500 (inl (ClientError "no body"))).

(** A store holding the list [[None, table_a]] with [usd] and [gbp] only:
    the list at 0, the array of tables at 1, the table at 2, its rates at 3,
    the two rate dicts at 4 and 5. *)
Definition objects : heap :=
  fun l =>
    match l with
    | 0 => OList [VNone; VRef 1]
    | 1 => OList [VRef 2]
    | 2 => OTable (VRef 3)
    | 3 => OList [VRef 4; VRef 5]
    | 4 => ORate usd
    | 5 => ORate gbp
    | _ => OList []
    end%nat.

End Demo.

(** ** The program *)

Section Program.

Local Open Scope Z_scope.

(** The day on which the module is loaded, as a day number. *)
Variable today : Z.
(** The ["%Y-%m-%d"] text of a day number ([strftime], [str] of a date). *)
Variable isoformat : Z -> string.
(** The network: what one GET to a URL gives, a transport error or a response. *)
Variable http_get : string -> exn + response.
(** The order in which the interpreter iterates over a set of strings. *)
Variable set_order : gset string -> list string.
(** [str.upper]. *)
Variable upper : string -> string.
(** [int(s)] for a str: the integer, or the message of the [ValueError] that
    [int] raises. *)
Variable int_str : string -> string + Z.

Definition API_URL : string := "https://api.nbp.pl/api/exchangerates/tables/a/".

Definition TODAY : string := isoformat today.

(** [datetime.strptime(TODAY, "%Y-%m-%d")]: [TODAY] is the text of [today],
    and reading it back gives that day. *)
Definition strptime_TODAY : Z := today.

(** [int(s)] *)
Definition int (s : string) : M Z :=
  match int_str s with
  | inr z => ret z
  | inl msg => raise (ValueError msg)
  end.

(** *** NBPRateProvider *)

Definition session_get (url : string) : M response :=
  fun stdin =>
    Run (match http_get url with inl e => Raise e | inr r => Ret r end) [Get url] stdin.

Definition response_json (r : response) : M (list Table) :=
  match json r with
  | inl e => raise e
  | inr body => ret body
  end.

Definition get_rates (date : string) : M RateTable :=
  let url := API_URL +:+ date +:+ "?format=json" in
  r <- session_get url ;;
  if status r =? 200 then
    body <- response_json r ;;
    ret (Some body)
  else if status r =? 404 then
    ret None
  else
    raise (RuntimeError ("Data download error: " +:+ pretty (status r))).

(** *** Shared pieces of the two displayers *)

(** Truth value of a slot: [None] and the empty list are false. *)
Definition truthy (result : RateTable) : bool :=
  match result with
  | None => false
  | Some [] => false
  | Some (_ :: _) => true
  end.

(** [result != []] *)
Definition ne_empty_list (result : RateTable) : bool :=
  match result with
  | Some [] => false
  | _ => true
  end.

(** [result[0]] *)
Definition getitem0 (result : RateTable) : M Table :=
  match result with
  | None => raise TypeError
  | Some [] => raise IndexError
  | Some (table :: _) => ret table
  end.

(** [(datetime.strptime(TODAY, '%Y-%m-%d') - timedelta(days=i - 1)).date()] *)
Definition date_to_print (i : Z) : string :=
  isoformat (strptime_TODAY - (i - 1)).

(** [f"{currency['currency']:36} {currency['code']:4} {currency['mid']}"] *)
Definition format_rate (cur : CurrencyRate) : string :=
  PyStr.ljust 36 (currency cur) +:+ " " +:+ PyStr.ljust 4 (code cur) +:+ " "
    +:+ str_number (mid cur).

(** [currency['code'] in ('EUR', 'USD')] *)
Definition in_EUR_USD (c : string) : bool :=
  String.eqb c "EUR" || String.eqb c "USD".

(** *** BasicRateDisplayer *)

Definition display_basic_currencies (results : ResultSet) : M unit :=
  match results with
  | [] => print "No data available."
  | _ :: _ =>
      for_enumerate 1 results (fun i result =>
        print ("Data as of day " +:+ date_to_print i +:+ ":") ;;
        (if truthy result && ne_empty_list result then
           table <- getitem0 result ;;
           for_each (rates table) (fun cur =>
             if in_EUR_USD (code cur) then print (format_rate cur) else ret tt)
         else
           print "No data.") ;;
        print "")
  end.

(** The same function over the store: [results] is a reference to the list
    object, and every access reads the store. *)
Definition display_basic_currencies_obj (results : value) : SM unit :=
  nonempty <~ truth results ;;
  if negb nonempty then
    sprint "No data available."
  else
    items <~ list_items results ;;
    sfor_enumerate 1 items (fun i result =>
      sprint ("Data as of day " +:+ date_to_print i +:+ ":") ;;;
      (has_data <~ (t <~ truth result ;; if t then ne_empty result else sret false) ;;
       if has_data then
         table <~ item0 result ;;
         rates_list <~ rates_of table ;;
         currencies <~ list_items rates_list ;;
         sfor_each currencies (fun currency_ref =>
           cur <~ entries_of currency_ref ;;
           if in_EUR_USD (code cur) then sprint (format_rate cur) else sret tt)
       else
         sprint "No data.") ;;;
      sprint "").

(** *** AdditionalRateDisplayer *)

(** The inner [for ... if ...: print; break] of the additional display. *)
Fixpoint print_first_match (currency_choice : string) (l : list CurrencyRate) : M unit :=
  match l with
  | [] => ret tt
  | cur :: l' =>
      if String.eqb (code cur) currency_choice then print (format_rate cur)
      else print_first_match currency_choice l'
  end.

Definition display_additional_currencies (available_currencies_set : gset string)
    (results : ResultSet) : M unit :=
  if bool_decide (available_currencies_set = ∅) then
    print "No additional currencies available."
  else
    line <- input ("Enter the currency abbreviation (available: "
                   +:+ PyStr.join ", " (set_order available_currencies_set) +:+ "): ") ;;
    let currency_choice := upper line in
    if bool_decide (currency_choice ∈ available_currencies_set) then
      for_enumerate 1 results (fun i result =>
        print ("Data as of day " +:+ date_to_print i +:+ ":") ;;
        (if truthy result && ne_empty_list result then
           table <- getitem0 result ;;
           print_first_match currency_choice (rates table)
         else
           print "No data.") ;;
        print "")
    else
      print "There is no such currency on the list.".

(** *** UserInteraction *)

(** The fetch phase of [main]: one task per day, joined by [gather]. *)
Definition fetch_range (days : Z) (sched : list nat) : M ResultSet :=
  let tasks := map (fun i => get_rates (isoformat (strptime_TODAY - i))) (range days) in
  gather tasks sched.

(** The loop that fills [additional_currencies]. *)
Fixpoint update_additional (additional_currencies : gset string) (results : ResultSet)
    : M (gset string) :=
  match results with
  | [] => ret additional_currencies
  | result :: results' =>
      if truthy result && ne_empty_list result then
        table <- getitem0 result ;;
        update_additional
          (additional_currencies ∪
             list_to_set (map code (filter (fun cur => negb (in_EUR_USD (code cur)))
                                           (rates table))))
          results'
      else update_additional additional_currencies results'
  end.

(** The [while True] loop; every round reads at least one console line. *)
Fixpoint ask_loop (fuel : nat) (additional_currencies : gset string) (results : ResultSet)
    : M unit :=
  match fuel with
  | O => fun stdin => Run Unfinished [] stdin
  | S fuel' =>
      choice <- input "Do you want to see rates for other currencies? (Y/N):" ;;
      if String.eqb (upper choice) "Y" then
        display_additional_currencies additional_currencies results ;;
        ask_loop fuel' additional_currencies results
      else if String.eqb (upper choice) "N" then
        ret tt
      else
        print "Incorrect selection, select 'Y' or 'N'." ;;
        ask_loop fuel' additional_currencies results
  end.

Definition while_True (additional_currencies : gset string) (results : ResultSet) : M unit :=
  fun stdin => ask_loop (S (length stdin)) additional_currencies results stdin.

Definition main (days : Z) (sched : list nat) : M unit :=
  results <- fetch_range days sched ;;
  display_basic_currencies results ;;
  additional_currencies <- update_additional ∅ results ;;
  while_True additional_currencies results.

(** The [__main__] block. *)
Definition program (sched : list nat) : M unit :=
  try_except_ValueError
    (line <- input "Enter the number of days (maximum 10):" ;;
     days <- int line ;;
     if 10 <? days then raise (ValueError "The number of days cannot be more than 10")
     else ret days)
    (fun e => print ("Error: " +:+ e))
    (fun days => main days sched).

(** ** What the displays are said to print

    These definitions follow the wording of the specification: the slot with
    0-based index [k] is labelled with the day [today - k]. *)

Definition header (k : nat) : string :=
  "Data as of day " +:+ isoformat (today - Z.of_nat k) +:+ ":".

(** Basic display: one line per currency whose code is EUR or USD, in table
    order; one "No data." line for an absent or empty slot. *)
Definition basic_rows (result : RateTable) : list string :=
  match result with
  | Some (table :: _) =>
      format_rate <$> filter (fun cur => in_EUR_USD (code cur)) (rates table)
  | _ => ["No data."]
  end.

Definition basic_day (k : nat) (result : RateTable) : list string :=
  header k :: basic_rows result ++ [""].

Definition basic_output (results : ResultSet) : list string :=
  match results with
  | [] => ["No data available."]
  | _ :: _ => concat (imap basic_day results)
  end.

(** Additional display: the first entry of the day with the requested code,
    if there is one; one "No data." line for an absent or empty slot. *)
Definition additional_rows (choice : string) (result : RateTable) : list string :=
  match result with
  | Some (table :: _) =>
      match find (fun cur => String.eqb (code cur) choice) (rates table) with
      | Some cur => [format_rate cur]
      | None => []
      end
  | _ => ["No data."]
  end.

Definition additional_day (choice : string) (k : nat) (result : RateTable) : list string :=
  header k :: additional_rows choice result ++ [""].

Definition currency_prompt (available : gset string) : string :=
  "Enter the currency abbreviation (available: "
    +:+ PyStr.join ", " (set_order available) +:+ "): ".

Definition yes_no_prompt : string :=
  "Do you want to see rates for other currencies? (Y/N):".

Definition days_prompt : string := "Enter the number of days (maximum 10):".

(** The URL requested for a date, and what [get_rates] gives for it. *)
Definition rates_url (date : string) : string :=
  API_URL +:+ date +:+ "?format=json".

Definition get_rates_result (date : string) : outcome RateTable :=
  match http_get (rates_url date) with
  | inl e => Raise e
  | inr r =>
      if status r =? 200 then
        match json r with
        | inl e => Raise e
        | inr body => Ret (Some body)
        end
      else if status r =? 404 then Ret None
      else Raise (RuntimeError ("Data download error: " +:+ pretty (status r)))
  end.

(** The date requested by task [i]: today minus [i] days. *)
Definition task_date (i : Z) : string := isoformat (today - i).

(** The outcomes of the tasks of one fetch, in request order. *)
Definition task_results (days : Z) : list (outcome RateTable) :=
  (fun i => get_rates_result (task_date i)) <$> range days.

(** The requests launched by one fetch, in request order. *)
Definition task_requests (days : Z) : list event :=
  (fun i => Get (rates_url (task_date i))) <$> range days.

(** The codes one slot adds to the available set: every code of its first
    table except EUR and USD. *)
Definition other_codes (result : RateTable) : gset string :=
  match result with
  | Some (table :: _) =>
      list_to_set (map code (filter (fun cur => negb (in_EUR_USD (code cur)))
                                    (rates table)))
  | _ => ∅
  end.

Definition available_codes (results : ResultSet) : gset string :=
  ⋃ (other_codes <$> results).

(** A computation that returns [a] after writing [evs], reading nothing. *)
Definition yields {A} (m : M A) (a : A) (evs : list event) : Prop :=
  forall stdin, m stdin = Run (Ret a) evs stdin.

(** A store computation that returns [a] after writing [evs], on the store
    [h] and leaving it as it is. *)
Definition syields {A} (m : SM A) (h : heap) (a : A) (evs : list event) : Prop :=
  m h = SRun (Ret a) evs h.

(** ** Runs of the monad operations *)

Lemma yields_ret {A} (a : A) : yields (ret a) a [].
Proof. intros stdin. reflexivity. Qed.

Lemma yields_print (line : string) : yields (print line) tt [Print line].
Proof. intros stdin. reflexivity. Qed.

Lemma yields_bind {A B} (m : M A) (k : A -> M B) a b e1 e2 e :
  yields m a e1 -> yields (k a) b e2 -> e = e1 ++ e2 -> yields (bind m k) b e.
Proof.
  intros Hm Hk -> stdin. unfold bind. cbv zeta.
  rewrite (Hm stdin). cbn. rewrite (Hk stdin). reflexivity.
Qed.

Lemma yields_for_each {A} (l : list A) (body : A -> M unit) (f : A -> list event) :
  (forall x, yields (body x) tt (f x)) ->
  yields (for_each l body) tt (concat (map f l)).
Proof.
  intros Hbody. induction l as [|x l IH]; cbn.
  - apply yields_ret.
  - eapply yields_bind; [apply Hbody | apply IH | reflexivity].
Qed.

Lemma yields_for_enumerate {A} (l : list A) (body : Z -> A -> M unit)
    (g : nat -> A -> list event) (start : Z) :
  (forall k x, yields (body (start + Z.of_nat k) x) tt (g k x)) ->
  yields (for_enumerate start l body) tt (concat (imap g l)).
Proof.
  revert start g. induction l as [|x l IH]; intros start g Hbody; cbn.
  - apply yields_ret.
  - eapply yields_bind; [ | apply (IH (start + 1) (g ∘ S)) | reflexivity].
    + specialize (Hbody O x). rewrite Z.add_0_r in Hbody. exact Hbody.
    + intros k y. specialize (Hbody (S k) y).
      replace (start + 1 + Z.of_nat k) with (start + Z.of_nat (S k)) by lia.
      exact Hbody.
Qed.

Lemma concat_fmap_Print (blocks : list (list string)) :
  concat (map (fmap Print) blocks) = Print <$> concat blocks.
Proof.
  induction blocks as [|b blocks IH]; cbn; [reflexivity|].
  rewrite IH, fmap_app. reflexivity.
Qed.

(** ** The two displays print what the specification says *)

Lemma date_to_print_header (k : nat) :
  "Data as of day " +:+ date_to_print (1 + Z.of_nat k) +:+ ":" = header k.
Proof.
  unfold header, date_to_print, strptime_TODAY. do 3 f_equal. lia.
Qed.

Lemma basic_rows_loop (l : list CurrencyRate) :
  yields (for_each l (fun cur =>
            if in_EUR_USD (code cur) then print (format_rate cur) else ret tt))
         tt
         (Print <$> (format_rate <$> filter (fun cur => in_EUR_USD (code cur)) l)).
Proof.
  induction l as [|cur l IH]; cbn [for_each].
  - apply yields_ret.
  - destruct (in_EUR_USD (code cur)) eqn:E.
    + rewrite filter_cons_True by (rewrite E; exact I).
      eapply yields_bind; [apply yields_print | apply IH | reflexivity].
    + rewrite filter_cons_False by (rewrite E; exact id).
      eapply yields_bind; [apply yields_ret | apply IH | reflexivity].
Qed.

Lemma basic_day_yields (k : nat) (result : RateTable) :
  yields
    (print ("Data as of day " +:+ date_to_print (1 + Z.of_nat k) +:+ ":") ;;
     (if truthy result && ne_empty_list result then
        table <- getitem0 result ;;
        for_each (rates table) (fun cur =>
          if in_EUR_USD (code cur) then print (format_rate cur) else ret tt)
      else print "No data.") ;;
     print "")
    tt (Print <$> basic_day k result).
Proof.
  rewrite date_to_print_header. unfold basic_day.
  assert (Hrows : yields
            (if truthy result && ne_empty_list result then
               table <- getitem0 result ;;
               for_each (rates table) (fun cur =>
                 if in_EUR_USD (code cur) then print (format_rate cur) else ret tt)
             else print "No data.")
            tt (Print <$> basic_rows result)).
  { destruct result as [[|table tables]|]; cbn -[filter].
    - apply yields_print.
    - eapply yields_bind; [apply yields_ret | apply basic_rows_loop | reflexivity].
    - apply yields_print. }
  eapply yields_bind; [apply yields_print | | ].
  - eapply yields_bind; [apply Hrows | apply yields_print | reflexivity].
  - rewrite fmap_cons, fmap_app. reflexivity.
Qed.

Lemma display_basic_yields (results : ResultSet) :
  yields (display_basic_currencies results) tt (Print <$> basic_output results).
Proof.
  destruct results as [|r0 results]; [apply yields_print|].
  unfold display_basic_currencies, basic_output.
  rewrite <- concat_fmap_Print.
  change (map (fmap Print)) with (fmap (M := list) (fmap (M := list) Print)).
  rewrite fmap_imap.
  apply yields_for_enumerate. intros k x. apply basic_day_yields.
Qed.

Lemma first_match_yields (choice : string) (l : list CurrencyRate) :
  yields (print_first_match choice l) tt
         (Print <$> match find (fun cur => String.eqb (code cur) choice) l with
                    | Some cur => [format_rate cur]
                    | None => []
                    end).
Proof.
  induction l as [|cur l IH]; cbn.
  - apply yields_ret.
  - destruct (String.eqb (code cur) choice); [apply yields_print | exact IH].
Qed.

Lemma additional_day_yields (choice : string) (k : nat) (result : RateTable) :
  yields
    (print ("Data as of day " +:+ date_to_print (1 + Z.of_nat k) +:+ ":") ;;
     (if truthy result && ne_empty_list result then
        table <- getitem0 result ;;
        print_first_match choice (rates table)
      else print "No data.") ;;
     print "")
    tt (Print <$> additional_day choice k result).
Proof.
  rewrite date_to_print_header. unfold additional_day.
  assert (Hrows : yields
            (if truthy result && ne_empty_list result then
               table <- getitem0 result ;;
               print_first_match choice (rates table)
             else print "No data.")
            tt (Print <$> additional_rows choice result)).
  { destruct result as [[|table tables]|]; cbn -[find].
    - apply yields_print.
    - eapply yields_bind; [apply yields_ret | apply first_match_yields | reflexivity].
    - apply yields_print. }
  eapply yields_bind; [apply yields_print | | ].
  - eapply yields_bind; [apply Hrows | apply yields_print | reflexivity].
  - rewrite fmap_cons, fmap_app. reflexivity.
Qed.

Lemma additional_days_yield (choice : string) (results : ResultSet) :
  yields
    (for_enumerate 1 results (fun i result =>
       print ("Data as of day " +:+ date_to_print i +:+ ":") ;;
       (if truthy result && ne_empty_list result then
          table <- getitem0 result ;;
          print_first_match choice (rates table)
        else print "No data.") ;;
       print ""))
    tt (Print <$> concat (imap (additional_day choice) results)).
Proof.
  rewrite <- concat_fmap_Print.
  change (map (fmap Print)) with (fmap (M := list) (fmap (M := list) Print)).
  rewrite fmap_imap.
  apply yields_for_enumerate. intros k x. apply additional_day_yields.
Qed.

Lemma display_additional_none (results : ResultSet) :
  yields (display_additional_currencies ∅ results) tt
         [Print "No additional currencies available."].
Proof.
  unfold display_additional_currencies.
  rewrite bool_decide_eq_true_2 by reflexivity. apply yields_print.
Qed.

(** The additional display on a non-empty set, with one line on the console. *)
Lemma display_additional_line (available : gset string) (results : ResultSet)
    (line : string) (stdin : list string) :
  available <> ∅ ->
  display_additional_currencies available results (line :: stdin) =
  Run (Ret tt)
      (Prompt (currency_prompt available) ::
         (if bool_decide (upper line ∈ available)
          then Print <$> concat (imap (additional_day (upper line)) results)
          else [Print "There is no such currency on the list."]))
      stdin.
Proof.
  intros Hne. unfold display_additional_currencies.
  rewrite bool_decide_eq_false_2 by exact Hne.
  unfold bind at 1. cbv zeta. cbn [input res out rest].
  fold (currency_prompt available).
  destruct (bool_decide (upper line ∈ available)).
  - rewrite (additional_days_yield (upper line) results stdin). reflexivity.
  - reflexivity.
Qed.

Lemma display_additional_eof (available : gset string) (results : ResultSet) :
  available <> ∅ ->
  display_additional_currencies available results [] =
  Run (Raise EOFError) [Prompt (currency_prompt available)] [].
Proof.
  intros Hne. unfold display_additional_currencies.
  rewrite bool_decide_eq_false_2 by exact Hne. reflexivity.
Qed.

(** ** The provider *)

Lemma get_rates_run (date : string) (stdin : list string) :
  get_rates date stdin = Run (get_rates_result date) [Get (rates_url date)] stdin.
Proof.
  unfold get_rates, get_rates_result, bind, session_get, response_json.
  fold (rates_url date). cbv zeta. cbn [res out rest].
  destruct (http_get (rates_url date)) as [e|r]; [reflexivity|].
  destruct (status r =? 200).
  - destruct (json r) as [e|body]; reflexivity.
  - destruct (status r =? 404); reflexivity.
Qed.

Lemma get_rates_result_finished (date : string) : get_rates_result date <> Unfinished.
Proof.
  unfold get_rates_result.
  destruct (http_get (rates_url date)) as [e|r]; [discriminate|].
  destruct (status r =? 200); [destruct (json r); discriminate|].
  destruct (status r =? 404); discriminate.
Qed.

(** ** The join *)

Lemma join_tasks_all_ret {A} (vals : list A) (sched : list nat) (slots : list (option A)) :
  length slots = length vals ->
  (forall k, (k < length vals)%nat ->
     slots !! k = Some (vals !! k) \/ (slots !! k = Some None /\ k ∈ sched)) ->
  join_tasks (Ret <$> vals) slots sched = Ret vals.
Proof.
  revert slots. induction sched as [|k sched IH]; intros slots Hlen Hinv; cbn.
  - assert (slots = Some <$> vals) as ->.
    { apply list_eq. intros i. rewrite list_lookup_fmap.
      destruct (decide (i < length vals)%nat) as [Hi|Hi].
      - destruct (Hinv i Hi) as [Hs|[_ Hin]]; [|inversion Hin].
        rewrite Hs. destruct (lookup_lt_is_Some_2 vals i Hi) as [v Hv].
        rewrite Hv. reflexivity.
      - rewrite !lookup_ge_None_2 by lia. reflexivity. }
    rewrite mapM_fmap_Some by reflexivity. reflexivity.
  - rewrite list_lookup_fmap.
    destruct (vals !! k) as [v|] eqn:Hk; cbn.
    + apply IH; [rewrite length_insert; exact Hlen|].
      intros j Hj. destruct (decide (j = k)) as [->|Hjk].
      * left. rewrite list_lookup_insert_eq by (rewrite Hlen; exact Hj).
        rewrite Hk. reflexivity.
      * rewrite list_lookup_insert_ne by congruence.
        destruct (Hinv j Hj) as [Hs|[Hs Hin]]; [left; exact Hs|right].
        split; [exact Hs|]. apply elem_of_cons in Hin as [?|?]; [congruence|assumption].
    + apply IH; [exact Hlen|].
      intros j Hj. destruct (Hinv j Hj) as [Hs|[Hs Hin]]; [left; exact Hs|right].
      split; [exact Hs|]. apply elem_of_cons in Hin as [->|?]; [|assumption].
      apply lookup_lt_is_Some_2 in Hj as [v Hv]. congruence.
Qed.

Lemma join_tasks_raise {A} (outs : list (outcome A)) (sched : list nat)
    (slots : list (option A)) (k : nat) (e : exn) :
  k ∈ sched -> outs !! k = Some (Raise e) ->
  exists k' e', k' ∈ sched /\ outs !! k' = Some (Raise e') /\
                join_tasks outs slots sched = Raise e'.
Proof.
  revert slots. induction sched as [|k0 sched IH]; intros slots Hin Hk.
  - inversion Hin.
  - cbn. destruct (outs !! k0) as [[a|e0|]|] eqn:Hk0.
    + assert (k ∈ sched) as Hin'.
      { apply elem_of_cons in Hin as [->|?]; [congruence|assumption]. }
      destruct (IH (<[k0 := Some a]> slots) Hin' Hk) as (k' & e' & ? & ? & ?).
      exists k', e'. split; [apply elem_of_cons; right; assumption|]. split; assumption.
    + exists k0, e0. split; [apply elem_of_cons; left; reflexivity|]. split; [assumption|reflexivity].
    + assert (k ∈ sched) as Hin'.
      { apply elem_of_cons in Hin as [->|?]; [congruence|assumption]. }
      destruct (IH slots Hin' Hk) as (k' & e' & ? & ? & ?).
      exists k', e'. split; [apply elem_of_cons; right; assumption|]. split; assumption.
    + assert (k ∈ sched) as Hin'.
      { apply elem_of_cons in Hin as [->|?]; [congruence|assumption]. }
      destruct (IH slots Hin' Hk) as (k' & e' & ? & ? & ?).
      exists k', e'. split; [apply elem_of_cons; right; assumption|]. split; assumption.
Qed.

Lemma outcomes_split {A} (outs : list (outcome A)) :
  Forall (fun o => o <> Unfinished) outs ->
  (exists vals, outs = Ret <$> vals) \/ (exists k e, outs !! k = Some (Raise e)).
Proof.
  induction 1 as [|o outs Ho _ IH].
  - left. exists []. reflexivity.
  - destruct o as [a|e|]; [|right; exists O, e; reflexivity|congruence].
    destruct IH as [[vals ->]|(k & e & Hk)].
    + left. exists (a :: vals). reflexivity.
    + right. exists (S k), e. exact Hk.
Qed.

(** A complete schedule names every task once. *)
Lemma sched_complete (n : nat) (sched : list nat) (k : nat) :
  sched ≡ₚ seq 0 n -> (k < n)%nat -> k ∈ sched.
Proof.
  intros Hperm Hk. rewrite Hperm. apply elem_of_seq. lia.
Qed.

Lemma gather_all_ret {A} (vals : list A) (sched : list nat) :
  sched ≡ₚ seq 0 (length vals) ->
  join_tasks (Ret <$> vals) (replicate (length vals) None) sched = Ret vals.
Proof.
  intros Hperm. apply join_tasks_all_ret.
  - apply length_replicate.
  - intros k Hk. right. split.
    + apply lookup_replicate_2. exact Hk.
    + eapply sched_complete; eassumption.
Qed.

(** ** The fetch phase *)

Lemma range_length (n : Z) : length (range n) = Z.to_nat n.
Proof. unfold range. rewrite length_map, length_seq. reflexivity. Qed.

Lemma range_lookup (n i : Z) : 0 <= i < n -> range n !! Z.to_nat i = Some i.
Proof.
  intros Hi. unfold range.
  change (map Z.of_nat) with (fmap (M := list) Z.of_nat).
  rewrite list_lookup_fmap, lookup_seq_lt by lia. cbn. f_equal. lia.
Qed.

Lemma range_lookup_inv (n : Z) (k : nat) (i : Z) :
  range n !! k = Some i -> 0 <= i < n /\ k = Z.to_nat i.
Proof.
  unfold range. change (map Z.of_nat) with (fmap (M := list) Z.of_nat).
  rewrite list_lookup_fmap. intros H.
  destruct (seq 0 (Z.to_nat n) !! k) as [j|] eqn:Hj; [|discriminate].
  apply lookup_seq in Hj as [-> Hk]. cbn in H. injection H as <-. lia.
Qed.

Lemma fetch_range_run (days : Z) (sched : list nat) (stdin : list string) :
  fetch_range days sched stdin =
  Run (join_tasks (task_results days) (replicate (Z.to_nat days) None) sched)
      (task_requests days)
      stdin.
Proof.
  unfold fetch_range, gather, task_results, task_requests, strptime_TODAY. fold task_date.
  rewrite length_map, range_length. f_equal.
  - f_equal. rewrite !map_map. apply map_ext. intros i.
    rewrite get_rates_run. reflexivity.
  - rewrite !map_map. induction (range days) as [|i l IH]; cbn; [reflexivity|].
    rewrite get_rates_run. cbn. f_equal. exact IH.
Qed.

Lemma task_results_lookup (days i : Z) :
  0 <= i < days ->
  task_results days !! Z.to_nat i = Some (get_rates_result (task_date i)).
Proof.
  intros Hi. unfold task_results.
  rewrite list_lookup_fmap, range_lookup by exact Hi. reflexivity.
Qed.

Lemma task_results_finished (days : Z) :
  Forall (fun o => o <> Unfinished) (task_results days).
Proof.
  unfold task_results. apply Forall_fmap, Forall_forall. intros i _.
  apply get_rates_result_finished.
Qed.

Lemma task_results_length (days : Z) : length (task_results days) = Z.to_nat days.
Proof. unfold task_results. rewrite length_fmap. apply range_length. Qed.

(** With a complete schedule the join either hands back every value, slot by
    slot, or raises what one of the calls raised. *)
Lemma join_task_results (days : Z) (sched : list nat) :
  sched ≡ₚ seq 0 (Z.to_nat days) ->
  (exists results,
      task_results days = Ret <$> results /\
      join_tasks (task_results days) (replicate (Z.to_nat days) None) sched = Ret results)
  \/
  (exists i e,
      0 <= i < days /\ get_rates_result (task_date i) = Raise e /\
      join_tasks (task_results days) (replicate (Z.to_nat days) None) sched = Raise e).
Proof.
  intros Hperm.
  destruct (outcomes_split _ (task_results_finished days)) as [[vals Hvals]|(k & e & Hk)].
  - left. exists vals. split; [exact Hvals|].
    assert (length vals = Z.to_nat days) as Hlen.
    { rewrite <- (task_results_length days), Hvals, length_fmap. reflexivity. }
    rewrite Hvals, <- Hlen. apply gather_all_ret. rewrite Hlen. exact Hperm.
  - right.
    assert (k < Z.to_nat days)%nat as Hlt.
    { rewrite <- (task_results_length days). apply lookup_lt_is_Some_1. eauto. }
    destruct (join_tasks_raise (task_results days) sched
                (replicate (Z.to_nat days) None) k e) as (k' & e' & Hin & Hk' & Hjoin).
    { eapply sched_complete; eassumption. }
    { exact Hk. }
    unfold task_results in Hk'. rewrite list_lookup_fmap in Hk'.
    destruct (range days !! k') as [i|] eqn:Hi; [|discriminate].
    apply range_lookup_inv in Hi as [Hi _]. cbn in Hk'. injection Hk' as Hk'.
    exists i, e'. split; [exact Hi|]. split; [exact Hk'|exact Hjoin].
Qed.

(** ** The Y/N loop *)

Lemma bind_run {A B} (m : M A) (k : A -> M B) (stdin : list string) :
  bind m k stdin =
  match res (m stdin) with
  | Ret a =>
      Run (res (k a (rest (m stdin))))
          (out (m stdin) ++ out (k a (rest (m stdin))))
          (rest (k a (rest (m stdin))))
  | Raise e => Run (Raise e) (out (m stdin)) (rest (m stdin))
  | Unfinished => Run Unfinished (out (m stdin)) (rest (m stdin))
  end.
Proof. reflexivity. Qed.

(** The additional display returns or raises, and reads at most one line. *)
Lemma display_additional_reads (available : gset string) (results : ResultSet)
    (stdin : list string) :
  res (display_additional_currencies available results stdin) <> Unfinished /\
  (length (rest (display_additional_currencies available results stdin)) <= length stdin)%nat.
Proof.
  destruct (decide (available = ∅)) as [->|Hne].
  - rewrite display_additional_none. cbn. split; [discriminate|lia].
  - destruct stdin as [|line stdin].
    + rewrite display_additional_eof by exact Hne. cbn. split; [discriminate|lia].
    + rewrite display_additional_line by exact Hne. cbn. split; [discriminate|lia].
Qed.

(** One round of the loop, for any amount of fuel left for the later rounds. *)
Lemma ask_loop_round (fuel : nat) (available : gset string) (results : ResultSet)
    (stdin : list string) :
  ask_loop (S fuel) available results stdin =
  match stdin with
  | [] => Run (Raise EOFError) [Prompt yes_no_prompt] []
  | choice :: stdin' =>
      if String.eqb (upper choice) "Y" then
        let r := (display_additional_currencies available results ;;
                  ask_loop fuel available results) stdin' in
        Run (res r) (Prompt yes_no_prompt :: out r) (rest r)
      else if String.eqb (upper choice) "N" then
        Run (Ret tt) [Prompt yes_no_prompt] stdin'
      else
        let r := ask_loop fuel available results stdin' in
        Run (res r) (Prompt yes_no_prompt :: Print "Incorrect selection, select 'Y' or 'N'." :: out r)
            (rest r)
  end.
Proof.
  cbn [ask_loop]. rewrite bind_run. fold yes_no_prompt.
  destruct stdin as [|choice stdin']; [reflexivity|].
  cbn [input res out rest].
  destruct (String.eqb (upper choice) "Y"); [reflexivity|].
  destruct (String.eqb (upper choice) "N"); [reflexivity|].
  rewrite bind_run. reflexivity.
Qed.

(** More fuel than console lines is always enough. *)
Lemma ask_loop_fuel (f1 f2 : nat) (available : gset string) (results : ResultSet)
    (stdin : list string) :
  (length stdin < f1)%nat -> (length stdin < f2)%nat ->
  ask_loop f1 available results stdin = ask_loop f2 available results stdin.
Proof.
  revert f2 stdin. induction f1 as [|f1 IH]; intros f2 stdin H1 H2; [lia|].
  destruct f2 as [|f2]; [lia|].
  rewrite !ask_loop_round.
  destruct stdin as [|choice stdin']; [reflexivity|]. cbn [length] in H1, H2.
  destruct (String.eqb (upper choice) "Y").
  - rewrite !bind_run.
    destruct (display_additional_reads available results stdin') as [_ Hlen].
    destruct (res (display_additional_currencies available results stdin'));
      [|reflexivity|reflexivity].
    rewrite (IH f2) by lia. reflexivity.
  - destruct (String.eqb (upper choice) "N"); [reflexivity|].
    rewrite (IH f2) by lia. reflexivity.
Qed.

Lemma ask_loop_finishes (fuel : nat) (available : gset string) (results : ResultSet)
    (stdin : list string) :
  (length stdin < fuel)%nat ->
  res (ask_loop fuel available results stdin) <> Unfinished.
Proof.
  revert stdin. induction fuel as [|fuel IH]; intros stdin Hlen; [lia|].
  rewrite ask_loop_round.
  destruct stdin as [|choice stdin']; [discriminate|]. cbn [length] in Hlen.
  destruct (String.eqb (upper choice) "Y").
  - cbv zeta. cbn [res]. rewrite bind_run.
    destruct (display_additional_reads available results stdin') as [Hfin Hrest].
    destruct (res (display_additional_currencies available results stdin'));
      [|discriminate|congruence].
    cbn [res]. apply IH. lia.
  - destruct (String.eqb (upper choice) "N"); [discriminate|].
    cbv zeta. cbn [res]. apply IH. lia.
Qed.

(** The loop as the source writes it: a round, then the loop again. *)
Lemma while_True_round (available : gset string) (results : ResultSet)
    (stdin : list string) :
  while_True available results stdin =
  match stdin with
  | [] => Run (Raise EOFError) [Prompt yes_no_prompt] []
  | choice :: stdin' =>
      if String.eqb (upper choice) "Y" then
        let r := (display_additional_currencies available results ;;
                  while_True available results) stdin' in
        Run (res r) (Prompt yes_no_prompt :: out r) (rest r)
      else if String.eqb (upper choice) "N" then
        Run (Ret tt) [Prompt yes_no_prompt] stdin'
      else
        let r := while_True available results stdin' in
        Run (res r) (Prompt yes_no_prompt :: Print "Incorrect selection, select 'Y' or 'N'." :: out r)
            (rest r)
  end.
Proof.
  unfold while_True at 1. rewrite ask_loop_round.
  destruct stdin as [|choice stdin']; [reflexivity|]. cbn [length].
  destruct (String.eqb (upper choice) "Y").
  - rewrite !bind_run.
    destruct (display_additional_reads available results stdin') as [_ Hlen].
    destruct (res (display_additional_currencies available results stdin'));
      [|reflexivity|reflexivity].
    unfold while_True.
    rewrite (ask_loop_fuel (S (length stdin'))
               (S (length (rest (display_additional_currencies available results stdin')))))
      by lia.
    reflexivity.
  - destruct (String.eqb (upper choice) "N"); reflexivity.
Qed.

Lemma while_True_finishes (available : gset string) (results : ResultSet)
    (stdin : list string) :
  res (while_True available results stdin) <> Unfinished.
Proof. unfold while_True. apply ask_loop_finishes. lia. Qed.

(** ** [main] and the [__main__] block *)

Lemma update_additional_yields (acc : gset string) (results : ResultSet) :
  yields (update_additional acc results) (acc ∪ available_codes results) [].
Proof.
  revert acc. induction results as [|result results IH]; intros acc.
  - unfold available_codes. cbn. rewrite (right_id_L ∅ (∪)). apply yields_ret.
  - unfold available_codes. cbn [update_additional fmap list_fmap union_list foldr].
    fold (available_codes results).
    rewrite (assoc_L (∪)).
    destruct result as [[|table tables]|]; cbn -[filter union].
    + rewrite (right_id_L ∅ (∪)). apply IH.
    + eapply yields_bind; [apply yields_ret | apply IH | reflexivity].
    + rewrite (right_id_L ∅ (∪)). apply IH.
Qed.

Lemma main_run (days : Z) (sched : list nat) (stdin : list string) :
  main days sched stdin =
  match join_tasks (task_results days) (replicate (Z.to_nat days) None) sched with
  | Ret results =>
      let r := while_True (available_codes results) results stdin in
      Run (res r) (task_requests days ++ (Print <$> basic_output results) ++ out r) (rest r)
  | Raise e => Run (Raise e) (task_requests days) stdin
  | Unfinished => Run Unfinished (task_requests days) stdin
  end.
Proof.
  unfold main. rewrite bind_run, fetch_range_run. cbn [res out rest].
  destruct (join_tasks _ _ sched) as [results| |]; [|reflexivity|reflexivity].
  rewrite bind_run, (display_basic_yields results stdin). cbn [res out rest].
  rewrite bind_run, (update_additional_yields ∅ results stdin). cbn [res out rest].
  rewrite (left_id_L ∅ (∪)). reflexivity.
Qed.

Lemma program_run (sched : list nat) (line : string) (stdin : list string) :
  program sched (line :: stdin) =
  match int_str line with
  | inl msg =>
      Run (Ret tt) [Prompt days_prompt; Print ("Error: " +:+ msg)] stdin
  | inr days =>
      if 10 <? days then
        Run (Ret tt)
            [Prompt days_prompt; Print "Error: The number of days cannot be more than 10"]
            stdin
      else
        let r := main days sched stdin in
        Run (res r) (Prompt days_prompt :: out r) (rest r)
  end.
Proof.
  unfold program, try_except_ValueError, int. cbv zeta.
  rewrite bind_run. cbn [input res out rest].
  destruct (int_str line) as [msg|days]; rewrite bind_run.
  - reflexivity.
  - cbn [ret res out rest]. destruct (10 <? days); reflexivity.
Qed.

Lemma program_eof (sched : list nat) :
  program sched [] = Run (Raise EOFError) [Prompt days_prompt] [].
Proof. reflexivity. Qed.

(** With a complete schedule [main] returns or raises. *)
Lemma main_finishes (days : Z) (sched : list nat) (stdin : list string) :
  sched ≡ₚ seq 0 (Z.to_nat days) ->
  res (main days sched stdin) <> Unfinished.
Proof.
  intros Hperm. rewrite main_run.
  destruct (join_task_results days sched Hperm)
    as [(vals & _ & ->)|(j & e & _ & _ & ->)]; [|discriminate].
  cbv zeta. cbn [res]. apply while_True_finishes.
Qed.

Lemma join_tasks_no_tasks {A} (sched : list nat) :
  join_tasks (A := A) [] [] sched = Ret [].
Proof. induction sched as [|k sched IH]; [reflexivity|exact IH]. Qed.

(** With the empty set the loop only asks, and answers that there is nothing
    more to show. *)
Lemma while_True_empty_events (stdin : list string) :
  Forall (fun ev => ev = Prompt yes_no_prompt \/
                    ev = Print "No additional currencies available." \/
                    ev = Print "Incorrect selection, select 'Y' or 'N'.")
         (out (while_True ∅ [] stdin)).
Proof.
  induction stdin as [|choice stdin IH]; rewrite while_True_round.
  - repeat constructor.
  - destruct (String.eqb (upper choice) "Y").
    + cbv zeta. cbn [out]. rewrite bind_run, (display_additional_none [] stdin).
      cbn [res out rest]. constructor; [left; reflexivity|].
      constructor; [right; left; reflexivity|exact IH].
    + destruct (String.eqb (upper choice) "N").
      * repeat constructor.
      * cbv zeta. cbn [out]. constructor; [left; reflexivity|].
        constructor; [right; right; reflexivity|exact IH].
Qed.

(** ** The claims *)

(** C1. For every [days] in 1..10 and every order in which the concurrent
    calls complete, the fetch phase of [main] gives a ResultSet as soon as
    every call returns, and every ResultSet it gives has exactly [days] slots,
    slot [i] holding what [get_rates] returned for the date today minus [i]
    days. *)
Theorem fetch_range_request_order (days : Z) (sched : list nat) (stdin : list string) :
  1 <= days <= 10 ->
  sched ≡ₚ seq 0 (Z.to_nat days) ->
  ((forall i, 0 <= i < days ->
      exists v, res (get_rates (isoformat (today - i)) stdin) = Ret v) ->
   exists results, res (fetch_range days sched stdin) = Ret results) /\
  (forall results,
      res (fetch_range days sched stdin) = Ret results ->
      length results = Z.to_nat days /\
      forall i, 0 <= i < days ->
        exists v, results !! Z.to_nat i = Some v /\
                  res (get_rates (isoformat (today - i)) stdin) = Ret v).
Proof.
  intros _ Hperm. rewrite fetch_range_run. cbn [res].
  destruct (join_task_results days sched Hperm)
    as [(vals & Hvals & ->)|(j & e & Hj & Hraise & ->)].
  - split; [eauto|].
    intros results [= <-]. split.
    + rewrite <- (task_results_length days), Hvals, length_fmap. reflexivity.
    + intros i Hi. pose proof (task_results_lookup days i Hi) as Hlook.
      rewrite Hvals, list_lookup_fmap in Hlook.
      destruct (vals !! Z.to_nat i) as [v|] eqn:Hv; [|discriminate].
      exists v. split; [exact Hv|].
      rewrite get_rates_run. cbn [res]. fold (task_date i).
      cbn in Hlook. congruence.
  - split; [|discriminate].
    intros Hall. destruct (Hall j Hj) as [v Hv].
    rewrite get_rates_run in Hv. cbn in Hv. unfold task_date in Hraise. congruence.
Qed.

(** C2. For every date, [get_rates] returns the parsed JSON body when the
    status is 200 (what [response.json()] gives), returns [None] when the
    status is 404, and for every other status raises an error whose message
    carries the status code, returning no value; two different status codes
    never give the same error. *)
Theorem get_rates_by_status (date : string) (stdin : list string) (r : response) :
  http_get (rates_url date) = inr r ->
  (status r = 200 ->
     res (get_rates date stdin) =
     match json r with inr body => Ret (Some body) | inl e => Raise e end) /\
  (status r = 404 -> res (get_rates date stdin) = Ret None) /\
  (status r <> 200 -> status r <> 404 ->
     res (get_rates date stdin) =
     Raise (RuntimeError ("Data download error: " +:+ pretty (status r)))) /\
  (forall code' : Z,
     RuntimeError ("Data download error: " +:+ pretty (status r)) =
     RuntimeError ("Data download error: " +:+ pretty code') ->
     status r = code').
Proof.
  intros Hget. rewrite get_rates_run. cbn [res]. unfold get_rates_result. rewrite Hget.
  repeat split.
  - intros ->. cbn. destruct (json r); reflexivity.
  - intros ->. reflexivity.
  - intros H200 H404.
    destruct (Z.eqb_spec (status r) 200); [contradiction|].
    destruct (Z.eqb_spec (status r) 404); [contradiction|]. reflexivity.
  - intros code' [= H]. apply (inj pretty). exact H.
Qed.

(** C4. For every ResultSet: when it is empty the basic display prints
    "No data available." and nothing else; otherwise it prints, for each day
    in order, the date header, one formatted line per currency whose code is
    EUR or USD in table order (or the single line "No data." when the slot is
    absent or empty), and a blank line. *)
Theorem display_basic_prints (result : RateTable) (results : ResultSet)
    (stdin : list string) :
  display_basic_currencies [] stdin = Run (Ret tt) [Print "No data available."] stdin /\
  display_basic_currencies (result :: results) stdin =
    Run (Ret tt) (Print <$> concat (imap basic_day (result :: results))) stdin /\
  (forall k slot,
     basic_day k slot =
     ("Data as of day " +:+ isoformat (today - Z.of_nat k) +:+ ":")
       :: basic_rows slot ++ [""]) /\
  basic_rows None = ["No data."] /\
  basic_rows (Some []) = ["No data."] /\
  (forall table tables,
     basic_rows (Some (table :: tables)) =
     format_rate <$> filter (fun cur => code cur = "EUR" \/ code cur = "USD") (rates table)).
Proof.
  split; [reflexivity|]. split.
  - rewrite display_basic_yields. reflexivity.
  - repeat split. intros table tables. cbn [basic_rows]. f_equal.
    apply list_filter_iff. intros cur. unfold in_EUR_USD.
    rewrite orb_True, !Is_true_true, !String.eqb_eq. reflexivity.
Qed.

(** *** The basic display over the store *)

Lemma syields_ret {A} (h : heap) (a : A) : syields (sret a) h a [].
Proof. reflexivity. Qed.

Lemma syields_print (h : heap) (line : string) : syields (sprint line) h tt [Print line].
Proof. reflexivity. Qed.

Lemma syields_bind {A B} (m : SM A) (k : A -> SM B) (h : heap) a b e1 e2 e :
  syields m h a e1 -> syields (k a) h b e2 -> e = e1 ++ e2 -> syields (sbind m k) h b e.
Proof.
  unfold syields. intros Hm Hk ->. unfold sbind. cbv zeta.
  rewrite Hm. cbn. rewrite Hk. reflexivity.
Qed.

Lemma syields_list_items (h : heap) (l : nat) (items : list value) :
  h l = OList items -> syields (list_items (VRef l)) h items [].
Proof.
  intros Hl. unfold syields, list_items, sbind, load. cbn. rewrite Hl. reflexivity.
Qed.

Lemma syields_for_each {A X} (R : A -> X -> Prop) (h : heap) (items : list A)
    (xs : list X) (body : A -> SM unit) (f : X -> list event) :
  Forall2 R items xs ->
  (forall item x, R item x -> syields (body item) h tt (f x)) ->
  syields (sfor_each items body) h tt (concat (map f xs)).
Proof.
  intros Hall Hbody. induction Hall as [|item x items xs HR _ IH]; cbn.
  - apply syields_ret.
  - eapply syields_bind; [apply Hbody, HR | apply IH | reflexivity].
Qed.

Lemma syields_for_enumerate {A X} (R : A -> X -> Prop) (h : heap) (items : list A)
    (xs : list X) (body : Z -> A -> SM unit) (g : nat -> X -> list event) (start : Z) :
  Forall2 R items xs ->
  (forall k item x, R item x -> syields (body (start + Z.of_nat k) item) h tt (g k x)) ->
  syields (sfor_enumerate start items body) h tt (concat (imap g xs)).
Proof.
  intros Hall. revert start g.
  induction Hall as [|item x items xs HR _ IH]; intros start g Hbody; cbn.
  - apply syields_ret.
  - eapply syields_bind; [ | apply (IH (start + 1) (g ∘ S)) | reflexivity].
    + specialize (Hbody O item x HR). rewrite Z.add_0_r in Hbody. exact Hbody.
    + intros k item' x' HR'. specialize (Hbody (S k) item' x' HR').
      replace (start + 1 + Z.of_nat k) with (start + Z.of_nat (S k)) by lia.
      exact Hbody.
Qed.

Lemma rate_rows_obj (h : heap) (items : list value) (curs : list CurrencyRate) :
  Forall2 (holds_rate h) items curs ->
  syields (sfor_each items (fun currency_ref =>
             cur <~ entries_of currency_ref ;;
             if in_EUR_USD (code cur) then sprint (format_rate cur) else sret tt))
          h tt
          (Print <$> (format_rate <$> filter (fun cur => in_EUR_USD (code cur)) curs)).
Proof.
  intros Hall.
  replace (Print <$> (format_rate <$> filter (fun cur => in_EUR_USD (code cur)) curs))
    with (concat (map (fun cur => if in_EUR_USD (code cur)
                                  then [Print (format_rate cur)] else []) curs)).
  - apply (syields_for_each (holds_rate h)); [exact Hall|].
    intros item cur (l & -> & Hl).
    unfold syields, entries_of, sbind, load. cbn. rewrite Hl. cbn.
    destruct (in_EUR_USD (code cur)); reflexivity.
  - clear Hall. induction curs as [|cur curs IH]; [reflexivity|].
    cbn [map concat]. rewrite IH.
    destruct (in_EUR_USD (code cur)) eqn:E.
    + rewrite filter_cons_True by (rewrite E; exact I). reflexivity.
    + rewrite filter_cons_False by (rewrite E; exact id). reflexivity.
Qed.

Lemma basic_day_obj (h : heap) (k : nat) (result : value) (slot : RateTable) :
  holds_slot h result slot ->
  syields
    (sprint ("Data as of day " +:+ date_to_print (1 + Z.of_nat k) +:+ ":") ;;;
     (has_data <~ (t <~ truth result ;; if t then ne_empty result else sret false) ;;
      if has_data then
        table <~ item0 result ;;
        rates_list <~ rates_of table ;;
        currencies <~ list_items rates_list ;;
        sfor_each currencies (fun currency_ref =>
          cur <~ entries_of currency_ref ;;
          if in_EUR_USD (code cur) then sprint (format_rate cur) else sret tt)
      else
        sprint "No data.") ;;;
     sprint "")
    h tt (Print <$> basic_day k slot).
Proof.
  intros Hslot. rewrite date_to_print_header. unfold basic_day.
  eapply syields_bind; [apply syields_print | | rewrite fmap_cons, fmap_app; reflexivity].
  eapply syields_bind; [ | apply syields_print | reflexivity].
  destruct slot as [[|table tables]|]; cbn [holds_slot basic_rows] in *.
  - destruct Hslot as (l & items & -> & Hl & Hall). inversion Hall; subst.
    eapply syields_bind with (a := false) (e1 := []); [ | apply syields_print | reflexivity].
    unfold syields, sbind, truth, load. cbn. rewrite Hl. reflexivity.
  - destruct Hslot as (l & items & -> & Hl & Hall).
    inversion Hall as [|item t items' ts Htable Hrest]; subst.
    destruct Htable as (lt & r & lr & ritems & -> & Hlt & -> & Hlr & Hrates).
    eapply syields_bind with (a := true) (e1 := []); [ | | reflexivity].
    { unfold syields, sbind, truth, ne_empty, load. cbn. rewrite Hl. cbn.
      rewrite Hl. reflexivity. }
    eapply syields_bind with (a := VRef lt) (e1 := []); [ | | reflexivity].
    { unfold syields, item0, list_items, sbind, load. cbn. rewrite Hl. reflexivity. }
    eapply syields_bind with (a := VRef lr) (e1 := []); [ | | reflexivity].
    { unfold syields, rates_of, sbind, load. cbn. rewrite Hlt. reflexivity. }
    eapply syields_bind; [apply syields_list_items, Hlr | | reflexivity].
    apply rate_rows_obj. exact Hrates.
  - subst result.
    eapply syields_bind with (a := false) (e1 := []); [ | apply syields_print | reflexivity].
    reflexivity.
Qed.

Lemma display_basic_obj_yields (h : heap) (results : value) (rs : ResultSet) :
  holds_results h results rs ->
  syields (display_basic_currencies_obj results) h tt (Print <$> basic_output rs).
Proof.
  intros (l & items & -> & Hl & Hall). unfold display_basic_currencies_obj.
  destruct rs as [|slot rs].
  - inversion Hall; subst.
    eapply syields_bind with (a := false) (e1 := []); [ | apply syields_print | reflexivity].
    unfold syields, sbind, truth, load. cbn. rewrite Hl. reflexivity.
  - inversion Hall as [|item s items' rs' Hslot Hrest]; subst.
    unfold basic_output.
    eapply syields_bind with (a := true) (e1 := [])
      (e2 := Print <$> concat (imap basic_day (slot :: rs))); [ | | reflexivity].
    { unfold syields, sbind, truth, load. cbn. rewrite Hl. reflexivity. }
    cbn [negb].
    eapply syields_bind with (e1 := [])
      (e2 := Print <$> concat (imap basic_day (slot :: rs)));
      [apply syields_list_items, Hl | | reflexivity].
    rewrite <- concat_fmap_Print.
    change (map (fmap Print)) with (fmap (M := list) (fmap (M := list) Print)).
    rewrite fmap_imap.
    apply (syields_for_enumerate (holds_slot h)); [exact Hall|].
    intros k item' slot' Hslot'. apply basic_day_obj. exact Hslot'.
Qed.

(** C9. Calling the basic display twice on the same ResultSet gives the same
    output both times, and the display does not change its input: on every
    store in which [results] refers to a list object holding a ResultSet, the
    display leaves the store as it is, so the second call finds the same
    objects, prints the same lines as the first and ends the same way.  The
    lines are those of the basic display of that ResultSet. *)
Theorem display_basic_twice_same_objects (h : heap) (results : value) (rs : ResultSet) :
  holds_results h results rs ->
  let first := display_basic_currencies_obj results h in
  let second := display_basic_currencies_obj results (sheap first) in
  sheap first = h /\
  holds_results (sheap first) results rs /\
  sout second = sout first /\
  sres second = sres first /\
  sheap second = h /\
  sout first = out (display_basic_currencies rs []).
Proof.
  intros Hholds. cbv zeta.
  pose proof (display_basic_obj_yields h results rs Hholds) as Hrun.
  unfold syields in Hrun. rewrite Hrun. cbn [sheap sout sres]. rewrite Hrun.
  cbn [sheap sout sres]. rewrite (display_basic_yields rs []).
  repeat split. exact Hholds.
Qed.

Lemma additional_rows_count (choice : string) (table : Table) (tables : list Table) :
  length (additional_rows choice (Some (table :: tables))) =
  if existsb (fun cur => String.eqb (code cur) choice) (rates table) then 1%nat else 0%nat.
Proof.
  cbn [additional_rows]. induction (rates table) as [|cur l IH]; cbn; [reflexivity|].
  destruct (String.eqb (code cur) choice); [reflexivity|exact IH].
Qed.

(** C5. For every available set and ResultSet: with an empty set the
    additional display prints "No additional currencies available." and
    returns without asking; when the entered code, in upper case, is not in
    the set, it prints "There is no such currency on the list." and nothing
    else after the prompt; when it is in the set, it prints for each day the
    header, the first entry with that code (one line exactly when the day's
    table has the code, none otherwise) or "No data." for an absent slot, and
    a blank line. *)
Theorem display_additional_prints (available : gset string) (results : ResultSet)
    (line : string) (stdin : list string) :
  display_additional_currencies ∅ results stdin =
    Run (Ret tt) [Print "No additional currencies available."] stdin /\
  (available <> ∅ -> upper line ∉ available ->
     display_additional_currencies available results (line :: stdin) =
     Run (Ret tt)
         [Prompt (currency_prompt available);
          Print "There is no such currency on the list."]
         stdin) /\
  (upper line ∈ available ->
     display_additional_currencies available results (line :: stdin) =
     Run (Ret tt)
         (Prompt (currency_prompt available) ::
            (Print <$> concat (imap (additional_day (upper line)) results)))
         stdin) /\
  (forall choice k slot,
     additional_day choice k slot =
     ("Data as of day " +:+ isoformat (today - Z.of_nat k) +:+ ":")
       :: additional_rows choice slot ++ [""]) /\
  (forall choice, additional_rows choice None = ["No data."]) /\
  (forall choice table tables,
     additional_rows choice (Some (table :: tables)) =
       match find (fun cur => String.eqb (code cur) choice) (rates table) with
       | Some cur => [format_rate cur]
       | None => []
       end /\
     length (additional_rows choice (Some (table :: tables))) =
       if existsb (fun cur => String.eqb (code cur) choice) (rates table)
       then 1%nat else 0%nat).
Proof.
  split; [apply display_additional_none|]. split; [|split].
  - intros Hne Hnot. rewrite display_additional_line by exact Hne.
    rewrite bool_decide_eq_false_2 by exact Hnot. reflexivity.
  - intros Hin. rewrite display_additional_line by (intros ->; set_solver).
    rewrite bool_decide_eq_true_2 by exact Hin. reflexivity.
  - repeat split. apply additional_rows_count.
Qed.

(** C6. If one of the concurrent [get_rates] calls of a fetch raises, then
    for every completion order the join raises what one of the calls raised,
    and so does [main]: no ResultSet exists, and [main] has printed nothing,
    its only events being the requests it launched. *)
Theorem failed_call_fails_run (days : Z) (sched : list nat) (stdin : list string)
    (i : Z) (e : exn) :
  sched ≡ₚ seq 0 (Z.to_nat days) ->
  0 <= i < days ->
  res (get_rates (isoformat (today - i)) stdin) = Raise e ->
  exists j e',
    0 <= j < days /\
    res (get_rates (isoformat (today - j)) stdin) = Raise e' /\
    fetch_range days sched stdin = Run (Raise e') (task_requests days) stdin /\
    main days sched stdin = Run (Raise e') (task_requests days) stdin /\
    Forall (fun ev => exists url, ev = Get url) (out (main days sched stdin)).
Proof.
  intros Hperm Hi Hraise. rewrite get_rates_run in Hraise. cbn [res] in Hraise.
  destruct (join_task_results days sched Hperm)
    as [(vals & Hvals & _)|(j & e' & Hj & Hj' & Hjoin)].
  - pose proof (task_results_lookup days i Hi) as Hlook.
    rewrite Hvals, list_lookup_fmap in Hlook. unfold task_date in Hlook.
    destruct (vals !! Z.to_nat i); cbn in Hlook; congruence.
  - exists j, e'. split; [exact Hj|]. split.
    { rewrite get_rates_run. exact Hj'. }
    rewrite main_run, fetch_range_run, Hjoin. split; [reflexivity|].
    split; [reflexivity|]. cbn [out]. unfold task_requests.
    apply Forall_fmap, Forall_forall. intros k _. eexists. reflexivity.
Qed.

(** C7. For every console line that is not a valid integer ([int] raises a
    [ValueError]), or is an integer greater than 10, the program prints one
    error message and ends: the fetch phase is never entered and no request
    is launched. *)
Theorem invalid_days_no_fetch (sched : list nat) (line : string) (stdin : list string) :
  ((exists msg, int_str line = inl msg) \/
   (exists days, int_str line = inr days /\ 10 < days)) ->
  program sched (line :: stdin) =
    Run (Ret tt)
        [Prompt days_prompt;
         Print ("Error: " +:+
                match int_str line with
                | inl msg => msg
                | inr _ => "The number of days cannot be more than 10"
                end)]
        stdin /\
  Forall (fun ev => forall url, ev <> Get url) (out (program sched (line :: stdin))).
Proof.
  intros Hbad. rewrite program_run.
  destruct Hbad as [(msg & ->)|(days & -> & Hdays)].
  - split; [reflexivity|]. repeat constructor; discriminate.
  - rewrite (proj2 (Z.ltb_lt 10 days) Hdays).
    split; [reflexivity|]. repeat constructor; discriminate.
Qed.

(** C10. For every integer input [days <= 0] the program reports no error:
    the check only rejects values above 10, the fetch launches no request and
    gives the empty ResultSet, the basic display prints "No data available.",
    and the Y/N loop follows. *)
Theorem nonpositive_days_run (sched : list nat) (line : string) (days : Z)
    (stdin : list string) :
  int_str line = inr days ->
  days <= 0 ->
  fetch_range days sched stdin = Run (Ret []) [] stdin /\
  program sched (line :: stdin) =
    Run (res (while_True ∅ [] stdin))
        (Prompt days_prompt :: Print "No data available." :: out (while_True ∅ [] stdin))
        (rest (while_True ∅ [] stdin)) /\
  Forall (fun ev => ev = Prompt yes_no_prompt \/
                    ev = Print "No additional currencies available." \/
                    ev = Print "Incorrect selection, select 'Y' or 'N'.")
         (out (while_True ∅ [] stdin)).
Proof.
  intros Hparse Hdays.
  assert (Z.to_nat days = O) as Hzero by lia.
  assert (task_results days = []) as Hres.
  { unfold task_results, range. rewrite Hzero. reflexivity. }
  assert (task_requests days = []) as Hreq.
  { unfold task_requests, range. rewrite Hzero. reflexivity. }
  split; [|split].
  - rewrite fetch_range_run, Hres, Hreq, Hzero. cbn [replicate].
    rewrite join_tasks_no_tasks. reflexivity.
  - rewrite program_run, Hparse.
    destruct (Z.ltb_spec 10 days) as [?|_]; [lia|].
    rewrite main_run, Hres, Hreq, Hzero. cbn [replicate].
    rewrite join_tasks_no_tasks. reflexivity.
  - apply while_True_empty_events.
Qed.

Lemma ascii_upper_char_idem (c : ascii) :
  PyStr.ascii_upper_char (PyStr.ascii_upper_char c) = PyStr.ascii_upper_char c.
Proof. destruct c as [[] [] [] [] [] [] [] []]; reflexivity. Qed.

Lemma ascii_upper_char_ascii (c : ascii) :
  (nat_of_ascii c <? 128)%nat = true ->
  (nat_of_ascii (PyStr.ascii_upper_char c) <? 128)%nat = true.
Proof. destruct c as [[] [] [] [] [] [] [] []]; intros H; first [exact H | reflexivity]. Qed.

Lemma ascii_upper_idem (s : string) :
  PyStr.ascii_upper (PyStr.ascii_upper s) = PyStr.ascii_upper s.
Proof.
  induction s as [|c s IH]; [reflexivity|].
  cbn [PyStr.ascii_upper]. rewrite ascii_upper_char_idem, IH. reflexivity.
Qed.

Lemma ascii_upper_is_ascii (s : string) :
  PyStr.is_ascii s = true -> PyStr.is_ascii (PyStr.ascii_upper s) = true.
Proof.
  induction s as [|c s IH]; [reflexivity|].
  cbn [PyStr.is_ascii PyStr.ascii_upper]. intros H.
  apply andb_prop in H as [Hc Hs].
  rewrite (ascii_upper_char_ascii c Hc), (IH Hs). reflexivity.
Qed.

(** The Y/N loop and the additional display use a console line only through
    its upper-case form. *)
Lemma while_True_same_upper (available : gset string) (results : ResultSet)
    (c1 c2 : string) (stdin : list string) :
  upper c1 = upper c2 ->
  while_True available results (c1 :: stdin) = while_True available results (c2 :: stdin).
Proof. intros H. rewrite !while_True_round, H. reflexivity. Qed.

Lemma display_additional_same_upper (available : gset string) (results : ResultSet)
    (l1 l2 : string) (stdin : list string) :
  available <> ∅ ->
  upper l1 = upper l2 ->
  display_additional_currencies available results (l1 :: stdin) =
  display_additional_currencies available results (l2 :: stdin).
Proof.
  intros Hne H. rewrite !display_additional_line by exact Hne. rewrite H. reflexivity.
Qed.

(** C8. Both console answers are read through [str.upper], which on ASCII
    text turns a..z into A..Z.  Two answers with the same upper-case form are
    handled alike by the Y/N loop and by the additional display; so "y" is
    handled exactly as "Y" (the additional display runs, then the loop asks
    again) and "n" exactly as "N" (the loop ends), and a currency code typed
    in any mix of cases is handled as its upper-case form and matched when
    that form is in the available set, for instance "gbp" when "GBP" is
    available. *)
Theorem answers_ignore_case (available : gset string) (results : ResultSet)
    (stdin : list string) :
  (forall s, PyStr.is_ascii s = true -> upper s = PyStr.ascii_upper s) ->
  (forall c1 c2, upper c1 = upper c2 ->
     while_True available results (c1 :: stdin) =
     while_True available results (c2 :: stdin)) /\
  while_True available results ("y" :: stdin) =
    while_True available results ("Y" :: stdin) /\
  while_True available results ("y" :: stdin) =
    (let r := (display_additional_currencies available results ;;
               while_True available results) stdin in
     Run (res r) (Prompt yes_no_prompt :: out r) (rest r)) /\
  while_True available results ("n" :: stdin) =
    while_True available results ("N" :: stdin) /\
  while_True available results ("n" :: stdin) =
    Run (Ret tt) [Prompt yes_no_prompt] stdin /\
  (available <> ∅ ->
   forall l1 l2, upper l1 = upper l2 ->
     display_additional_currencies available results (l1 :: stdin) =
     display_additional_currencies available results (l2 :: stdin)) /\
  (forall line, PyStr.is_ascii line = true -> PyStr.ascii_upper line ∈ available ->
     display_additional_currencies available results (line :: stdin) =
       display_additional_currencies available results (PyStr.ascii_upper line :: stdin) /\
     display_additional_currencies available results (line :: stdin) =
       Run (Ret tt)
           (Prompt (currency_prompt available) ::
              (Print <$> concat (imap (additional_day (PyStr.ascii_upper line)) results)))
           stdin) /\
  ("GBP" ∈ available ->
   display_additional_currencies available results ("gbp" :: stdin) =
     display_additional_currencies available results ("GBP" :: stdin) /\
   display_additional_currencies available results ("gbp" :: stdin) =
     Run (Ret tt)
         (Prompt (currency_prompt available) ::
            (Print <$> concat (imap (additional_day "GBP") results)))
         stdin).
Proof.
  intros Hupper.
  assert (forall line, PyStr.is_ascii line = true -> PyStr.ascii_upper line ∈ available ->
     display_additional_currencies available results (line :: stdin) =
       display_additional_currencies available results (PyStr.ascii_upper line :: stdin) /\
     display_additional_currencies available results (line :: stdin) =
       Run (Ret tt)
           (Prompt (currency_prompt available) ::
              (Print <$> concat (imap (additional_day (PyStr.ascii_upper line)) results)))
           stdin) as Hcode.
  { intros line Hascii Hin.
    assert (available <> ∅) as Hne.
    { intros Hempty. rewrite Hempty in Hin. exact (not_elem_of_empty _ Hin). }
    split.
    - apply display_additional_same_upper; [exact Hne|].
      rewrite (Hupper line Hascii), (Hupper _ (ascii_upper_is_ascii line Hascii)).
      symmetry. apply ascii_upper_idem.
    - rewrite display_additional_line by exact Hne.
      rewrite (Hupper line Hascii), bool_decide_eq_true_2 by exact Hin. reflexivity. }
  assert (upper "y" = upper "Y") as HyY.
  { rewrite !Hupper by reflexivity. reflexivity. }
  assert (upper "n" = upper "N") as HnN.
  { rewrite !Hupper by reflexivity. reflexivity. }
  split; [intros c1 c2; apply while_True_same_upper|].
  split; [apply while_True_same_upper, HyY|].
  split.
  { rewrite while_True_round, (Hupper "y" eq_refl). reflexivity. }
  split; [apply while_True_same_upper, HnN|].
  split.
  { rewrite while_True_round, (Hupper "n" eq_refl). reflexivity. }
  split.
  { intros Hne l1 l2. apply display_additional_same_upper. exact Hne. }
  split; [exact Hcode|].
  intros Hin. exact (Hcode "gbp" eq_refl Hin).
Qed.

(** ** Absent slots, empty slots and slots with a table *)

Lemma string_length_app (s1 s2 : string) :
  String.length (s1 +:+ s2) = (String.length s1 + String.length s2)%nat.
Proof.
  induction s1 as [|c s1 IH]; [reflexivity|].
  change (S (String.length (s1 +:+ s2)) = S (String.length s1 + String.length s2)).
  rewrite IH. reflexivity.
Qed.

Lemma len_le_length (s : string) : (PyStr.len s <= String.length s)%nat.
Proof.
  induction s as [|c s IH]; [reflexivity|].
  change ((if PyStr.starts_code_point c then 1 else 0) + PyStr.len s
          <= S (String.length s))%nat.
  destruct (PyStr.starts_code_point c); lia.
Qed.

Lemma spaces_length (n : nat) : String.length (PyStr.spaces n) = n.
Proof.
  induction n as [|n IH]; [reflexivity|].
  change (S (String.length (PyStr.spaces n)) = S n). rewrite IH. reflexivity.
Qed.

Lemma ljust_length (width : nat) (s : string) :
  (width <= String.length (PyStr.ljust width s))%nat.
Proof.
  unfold PyStr.ljust. rewrite string_length_app, spaces_length.
  pose proof (len_le_length s). lia.
Qed.

(** A formatted rate line is at least 42 characters long, so it is never the
    line "No data.". *)
Lemma format_rate_not_no_data (cur : CurrencyRate) : format_rate cur <> "No data.".
Proof.
  intros H. apply (f_equal String.length) in H. unfold format_rate in H.
  rewrite !string_length_app in H.
  pose proof (ljust_length 36 (currency cur)).
  pose proof (ljust_length 4 (code cur)).
  cbn in H. lia.
Qed.

Lemma basic_day_table_differs (k : nat) (table : Table) (tables : list Table) :
  basic_day k None <> basic_day k (Some (table :: tables)).
Proof.
  unfold basic_day. cbn [basic_rows]. intros [= H].
  destruct (filter _ (rates table)) as [|cur l]; [discriminate|].
  cbn in H. injection H as H _. symmetry in H.
  exact (format_rate_not_no_data cur H).
Qed.

Lemma additional_day_table_differs (choice : string) (k : nat) (table : Table)
    (tables : list Table) :
  additional_day choice k None <> additional_day choice k (Some (table :: tables)).
Proof.
  unfold additional_day. cbn [additional_rows]. intros [= H].
  destruct (find _ (rates table)) as [cur|]; [|discriminate].
  cbn in H. injection H as H. symmetry in H.
  exact (format_rate_not_no_data cur H).
Qed.

(** The blocks of the days before and after a slot do not depend on it. *)
Lemma day_blocks_split (f : nat -> RateTable -> list string) (before after : ResultSet)
    (slot : RateTable) :
  concat (imap f (before ++ slot :: after)) =
  concat (imap f before) ++ f (length before) slot
    ++ concat (imap (fun n => f (length before + S n)%nat) after).
Proof.
  rewrite imap_app, concat_app. cbn [imap concat].
  rewrite Nat.add_0_r. reflexivity.
Qed.

Lemma day_blocks_same (f : nat -> RateTable -> list string) (before after : ResultSet)
    (slot slot' : RateTable) :
  f (length before) slot = f (length before) slot' ->
  concat (imap f (before ++ slot :: after)) = concat (imap f (before ++ slot' :: after)).
Proof. intros H. rewrite !day_blocks_split, H. reflexivity. Qed.

Lemma day_blocks_differ (f : nat -> RateTable -> list string) (before after : ResultSet)
    (slot slot' : RateTable) :
  f (length before) slot <> f (length before) slot' ->
  Print <$> concat (imap f (before ++ slot :: after)) <>
  Print <$> concat (imap f (before ++ slot' :: after)).
Proof.
  intros Hdiff Heq. apply Hdiff.
  assert (Inj (=) (=) Print) as HP by (intros x y [= ->]; reflexivity).
  apply (inj (fmap Print)) in Heq.
  rewrite !day_blocks_split in Heq.
  apply app_inv_head in Heq. apply app_inv_tail in Heq. exact Heq.
Qed.

Lemma basic_output_slot (before after : ResultSet) (slot : RateTable) :
  basic_output (before ++ slot :: after) = concat (imap basic_day (before ++ slot :: after)).
Proof. destruct before; reflexivity. Qed.

(** C3, as the code has it.  An absent slot and a present slot holding an
    empty list are printed alike by both displays.  A present slot holding a
    table, even one without rates, is printed differently from an absent one:
    by the basic display always, and by the additional display whenever the
    entered code is in the available set. *)
Theorem absent_and_empty_slots (available : gset string) (before after : ResultSet)
    (line : string) (stdin : list string) :
  display_basic_currencies (before ++ None :: after) stdin =
    display_basic_currencies (before ++ Some [] :: after) stdin /\
  display_additional_currencies available (before ++ None :: after) stdin =
    display_additional_currencies available (before ++ Some [] :: after) stdin /\
  (forall table tables,
     out (display_basic_currencies (before ++ None :: after) stdin) <>
     out (display_basic_currencies (before ++ Some (table :: tables) :: after) stdin)) /\
  (upper line ∈ available ->
   forall table tables,
     out (display_additional_currencies available (before ++ None :: after) (line :: stdin)) <>
     out (display_additional_currencies available
            (before ++ Some (table :: tables) :: after) (line :: stdin))).
Proof.
  split; [|split; [|split]].
  - rewrite !display_basic_yields, !basic_output_slot.
    rewrite (day_blocks_same basic_day before after None (Some [])); reflexivity.
  - destruct (decide (available = ∅)) as [->|Hne].
    + rewrite !display_additional_none. reflexivity.
    + destruct stdin as [|answer stdin].
      * rewrite !display_additional_eof by exact Hne. reflexivity.
      * rewrite !display_additional_line by exact Hne.
        destruct (bool_decide (upper answer ∈ available)); [|reflexivity].
        do 3 f_equal. apply day_blocks_same. reflexivity.
  - intros table tables. rewrite !display_basic_yields, !basic_output_slot.
    cbn [out]. apply day_blocks_differ, basic_day_table_differs.
  - intros Hin table tables.
    rewrite !display_additional_line by (intros ->; set_solver).
    rewrite bool_decide_eq_true_2 by exact Hin. cbn [out].
    intros [= H]. revert H. apply day_blocks_differ, additional_day_table_differs.
Qed.

(** ** The set of additional currencies *)

Lemma elem_of_other_codes (c : string) (result : RateTable) :
  c ∈ other_codes result <->
  exists table tables cur,
    result = Some (table :: tables) /\ cur ∈ rates table /\ code cur = c /\
    c <> "EUR" /\ c <> "USD".
Proof using Type.
  destruct result as [[|table tables]|]; cbn -[filter].
  - split; [intros H; apply not_elem_of_empty in H; contradiction|].
    intros (? & ? & ? & [=] & _).
  - rewrite elem_of_list_to_set.
    change (map code) with (fmap (M := list) code).
    rewrite list_elem_of_fmap. split.
    + intros (cur & -> & Hcur). apply list_elem_of_filter in Hcur as [Hnot Hcur].
      exists table, tables, cur. split; [reflexivity|]. split; [exact Hcur|].
      split; [reflexivity|].
      unfold in_EUR_USD in Hnot. apply negb_True in Hnot.
      rewrite orb_True, !Is_true_true, !String.eqb_eq in Hnot.
      split; intros Hc; apply Hnot; [left|right]; exact Hc.
    + intros (table' & tables' & cur & [= <- <-] & Hcur & <- & HE & HU).
      exists cur. split; [reflexivity|]. apply list_elem_of_filter. split; [|exact Hcur].
      unfold in_EUR_USD. apply negb_True.
      rewrite orb_True, !Is_true_true, !String.eqb_eq. intros [?|?]; contradiction.
  - split; [intros H; apply not_elem_of_empty in H; contradiction|].
    intros (? & ? & ? & [=] & _).
Qed.

Lemma elem_of_available_codes (c : string) (results : ResultSet) :
  c ∈ available_codes results <->
  exists table tables cur,
    Some (table :: tables) ∈ results /\ cur ∈ rates table /\ code cur = c /\
    c <> "EUR" /\ c <> "USD".
Proof using Type.
  unfold available_codes. rewrite elem_of_union_list. split.
  - intros (X & HX & Hc). apply list_elem_of_fmap in HX as (result & -> & Hres).
    apply elem_of_other_codes in Hc as (table & tables & cur & -> & H).
    exists table, tables, cur. split; [exact Hres|exact H].
  - intros (table & tables & cur & Hres & H).
    exists (other_codes (Some (table :: tables))). split.
    + apply list_elem_of_fmap. eexists. split; [reflexivity|exact Hres].
    + apply elem_of_other_codes. exists table, tables, cur. split; [reflexivity|exact H].
Qed.

(** X1. The loop of [main] that fills [additional_currencies] writes and
    reads nothing, and the set it returns holds exactly the codes, other than
    EUR and USD, of the first table of the slots that have one. *)
Theorem additional_currencies_members (results : ResultSet) (stdin : list string)
    (c : string) :
  update_additional ∅ results stdin = Run (Ret (available_codes results)) [] stdin /\
  (c ∈ available_codes results <->
   exists table tables cur,
     Some (table :: tables) ∈ results /\ cur ∈ rates table /\ code cur = c /\
     c <> "EUR" /\ c <> "USD").
Proof.
  split; [|apply elem_of_available_codes].
  rewrite (update_additional_yields ∅ results stdin), (left_id_L ∅ (∪)). reflexivity.
Qed.

(** X2. With the set that [main] computes, the codes EUR and USD, in any
    letter case, are never accepted by the additional display: it answers
    that nothing is available (without asking) or that there is no such
    currency. *)
Theorem basic_codes_not_offered (results : ResultSet) (line : string)
    (stdin : list string) :
  upper line = "EUR" \/ upper line = "USD" ->
  (available_codes results = ∅ /\
   display_additional_currencies (available_codes results) results (line :: stdin) =
   Run (Ret tt) [Print "No additional currencies available."] (line :: stdin)) \/
  (available_codes results <> ∅ /\
   display_additional_currencies (available_codes results) results (line :: stdin) =
   Run (Ret tt)
       [Prompt (currency_prompt (available_codes results));
        Print "There is no such currency on the list."]
       stdin).
Proof.
  intros Hline.
  destruct (decide (available_codes results = ∅)) as [Hempty|Hne].
  - left. split; [exact Hempty|]. rewrite Hempty. apply display_additional_none.
  - right. split; [exact Hne|].
    rewrite display_additional_line by exact Hne.
    rewrite bool_decide_eq_false_2; [reflexivity|].
    intros Hin. apply elem_of_available_codes in Hin
      as (_ & _ & _ & _ & _ & _ & HE & HU).
    destruct Hline; contradiction.
Qed.



(** X4. Only the first table of a slot is used: further tables of the same
    slot change neither what the two displays print nor the set of
    additional currencies. *)
Theorem later_tables_ignored (available : gset string) (before after : ResultSet)
    (table : Table) (tables : list Table) (stdin : list string) :
  display_basic_currencies (before ++ Some (table :: tables) :: after) stdin =
    display_basic_currencies (before ++ Some [table] :: after) stdin /\
  display_additional_currencies available (before ++ Some (table :: tables) :: after) stdin =
    display_additional_currencies available (before ++ Some [table] :: after) stdin /\
  available_codes (before ++ Some (table :: tables) :: after) =
    available_codes (before ++ Some [table] :: after).
Proof.
  split; [|split].
  - rewrite !display_basic_yields, !basic_output_slot.
    rewrite (day_blocks_same basic_day before after
               (Some (table :: tables)) (Some [table])); reflexivity.
  - destruct (decide (available = ∅)) as [->|Hne].
    + rewrite !display_additional_none. reflexivity.
    + destruct stdin as [|answer stdin].
      * rewrite !display_additional_eof by exact Hne. reflexivity.
      * rewrite !display_additional_line by exact Hne.
        destruct (bool_decide (upper answer ∈ available)); [|reflexivity].
        do 3 f_equal. apply day_blocks_same. reflexivity.
  - unfold available_codes. rewrite !fmap_app, !fmap_cons. reflexivity.
Qed.

(** ** Requests and failures of the fetch phase *)

(** X5. Whatever the completion order and whatever the calls give, the fetch
    phase launches exactly one request per day, in request order, for the
    dates today, today - 1, ..., and reads nothing from the console. *)
Theorem fetch_launches_requests (days : Z) (sched : list nat) (stdin : list string) :
  out (fetch_range days sched stdin) =
    (fun i => Get (API_URL +:+ isoformat (today - i) +:+ "?format=json")) <$> range days /\
  length (out (fetch_range days sched stdin)) = Z.to_nat days /\
  rest (fetch_range days sched stdin) = stdin.
Proof.
  rewrite fetch_range_run. cbn [out rest]. unfold task_requests.
  split; [reflexivity|]. split; [|reflexivity].
  rewrite length_fmap. apply range_length.
Qed.

Lemma join_tasks_first_raise {A} (outs : list (outcome A)) (slots : list (option A))
    (before after : list nat) (k : nat) (e : exn) :
  outs !! k = Some (Raise e) ->
  (forall j e', j ∈ before -> outs !! j <> Some (Raise e')) ->
  join_tasks outs slots (before ++ k :: after) = Raise e.
Proof.
  intros Hk. revert slots. induction before as [|j before IH]; intros slots Hbefore; cbn.
  - rewrite Hk. reflexivity.
  - assert (forall j' e', j' ∈ before -> outs !! j' <> Some (Raise e')) as Hrest.
    { intros j' e' Hj'. apply Hbefore. apply elem_of_cons. right. exact Hj'. }
    destruct (outs !! j) as [[a|e0|]|] eqn:Hj.
    + apply IH. exact Hrest.
    + exfalso. apply (Hbefore j e0); [apply elem_of_cons; left; reflexivity|exact Hj].
    + apply IH. exact Hrest.
    + apply IH. exact Hrest.
Qed.

Lemma task_results_lookup_nat (days : Z) (k : nat) :
  (k < Z.to_nat days)%nat ->
  task_results days !! k = Some (get_rates_result (task_date (Z.of_nat k))).
Proof.
  intros Hk. rewrite <- (Nat2Z.id k) at 1. apply task_results_lookup. lia.
Qed.

Lemma task_results_lookup_raise (days : Z) (j : nat) (e : exn) :
  task_results days !! j = Some (Raise e) ->
  get_rates_result (task_date (Z.of_nat j)) = Raise e.
Proof.
  intros Hj.
  assert (j < Z.to_nat days)%nat as Hlt.
  { rewrite <- (task_results_length days). apply lookup_lt_is_Some_1. eauto. }
  rewrite task_results_lookup_nat in Hj by exact Hlt. congruence.
Qed.

(** X6. The exception of a failed fetch is the one of the call that fails
    first: when call [k] raises [e] and no call that completed before it
    raised, the join raises [e] and so does [main], whatever the calls that
    complete later give. *)
Theorem first_failure_is_raised (days : Z) (before after : list nat) (k : nat)
    (stdin : list string) (e : exn) :
  (k < Z.to_nat days)%nat ->
  res (get_rates (isoformat (today - Z.of_nat k)) stdin) = Raise e ->
  (forall j e', j ∈ before ->
     res (get_rates (isoformat (today - Z.of_nat j)) stdin) <> Raise e') ->
  fetch_range days (before ++ k :: after) stdin =
    Run (Raise e) (task_requests days) stdin /\
  main days (before ++ k :: after) stdin =
    Run (Raise e) (task_requests days) stdin.
Proof.
  intros Hk Hraise Hbefore. rewrite get_rates_run in Hraise. cbn [res] in Hraise.
  assert (join_tasks (task_results days) (replicate (Z.to_nat days) None)
            (before ++ k :: after) = Raise e) as Hjoin.
  { apply join_tasks_first_raise.
    - rewrite task_results_lookup_nat by exact Hk. f_equal. exact Hraise.
    - intros j e' Hj Hlook. apply (Hbefore j e' Hj).
      rewrite get_rates_run. cbn [res].
      apply task_results_lookup_raise in Hlook. exact Hlook. }
  rewrite main_run, fetch_range_run, Hjoin. split; reflexivity.
Qed.

(** X7. One call of [get_rates] launches exactly one request, to the URL of
    its date, and reads nothing from the console; when the transport fails
    the failure is raised as it is, with no second attempt. *)
Theorem get_rates_single_request (date : string) (stdin : list string) :
  out (get_rates date stdin) = [Get (API_URL +:+ date +:+ "?format=json")] /\
  rest (get_rates date stdin) = stdin /\
  (forall e, http_get (API_URL +:+ date +:+ "?format=json") = inl e ->
     res (get_rates date stdin) = Raise e).
Proof.
  rewrite get_rates_run. cbn [res out rest]. split; [reflexivity|]. split; [reflexivity|].
  intros e He. unfold get_rates_result, rates_url. rewrite He. reflexivity.
Qed.

(** X8. For an integer not above 10 the [__main__] block prints no error of
    its own: after the prompt the run is the run of [main], and an exception
    raised inside [main], a [ValueError] included, is not caught. *)
Theorem accepted_days_run_main (sched : list nat) (line : string) (days : Z)
    (stdin : list string) :
  int_str line = inr days ->
  days <= 10 ->
  program sched (line :: stdin) =
    Run (res (main days sched stdin))
        (Prompt days_prompt :: out (main days sched stdin))
        (rest (main days sched stdin)) /\
  (forall e, res (main days sched stdin) = Raise e ->
     res (program sched (line :: stdin)) = Raise e).
Proof.
  intros Hparse Hdays.
  assert (program sched (line :: stdin) =
          Run (res (main days sched stdin))
              (Prompt days_prompt :: out (main days sched stdin))
              (rest (main days sched stdin))) as Hrun.
  { rewrite program_run, Hparse.
    destruct (Z.ltb_spec 10 days) as [?|_]; [lia|reflexivity]. }
  split; [exact Hrun|]. intros e He. rewrite Hrun. exact He.
Qed.

(** ** The interactive phase *)

Lemma while_True_ends_below (n : nat) (available : gset string) (results : ResultSet) :
  forall stdin, (length stdin < n)%nat ->
    (res (while_True available results stdin) = Ret tt /\
     exists before line,
       stdin = before ++ line :: rest (while_True available results stdin) /\
       upper line = "N") \/
    (res (while_True available results stdin) = Raise EOFError /\
     rest (while_True available results stdin) = []).
Proof.
  induction n as [|n IH]; intros stdin Hlen; [lia|].
  rewrite while_True_round.
  destruct stdin as [|choice stdin]; [right; split; reflexivity|].
  cbn [length] in Hlen.
  destruct (String.eqb (upper choice) "Y") eqn:HY.
  - cbv zeta. cbn [res rest]. rewrite bind_run.
    destruct (decide (available = ∅)) as [->|Hne].
    + rewrite (display_additional_none results stdin). cbn [res out rest].
      destruct (IH stdin ltac:(lia)) as [(Hres & before & line & Hsplit & HN)|Heof].
      * left. split; [exact Hres|].
        exists (choice :: before), line. split; [|exact HN].
        cbn. f_equal. exact Hsplit.
      * right. exact Heof.
    + destruct stdin as [|answer stdin].
      * rewrite display_additional_eof by exact Hne. right. split; reflexivity.
      * rewrite display_additional_line by exact Hne. cbn [res out rest].
        cbn [length] in Hlen.
        destruct (IH stdin ltac:(lia)) as [(Hres & before & line & Hsplit & HN)|Heof].
        -- left. split; [exact Hres|].
           exists (choice :: answer :: before), line. split; [|exact HN].
           cbn. do 2 f_equal. exact Hsplit.
        -- right. exact Heof.
  - destruct (String.eqb (upper choice) "N") eqn:HN.
    + left. split; [reflexivity|]. exists [], choice. split; [reflexivity|].
      apply String.eqb_eq. exact HN.
    + cbv zeta. cbn [res rest].
      destruct (IH stdin ltac:(lia)) as [(Hres & before & line & Hsplit & HN')|Heof].
      * left. split; [exact Hres|].
        exists (choice :: before), line. split; [|exact HN'].
        cbn. f_equal. exact Hsplit.
      * right. exact Heof.
Qed.

(** X9. The Y/N loop ends in one of two ways only: it returns, and then the
    last line it read is an "N" in some letter case; or the console input is
    used up and [EOFError] is raised. *)
Theorem loop_ends_on_N_or_EOF (available : gset string) (results : ResultSet)
    (stdin : list string) :
  (res (while_True available results stdin) = Ret tt /\
   exists before line,
     stdin = before ++ line :: rest (while_True available results stdin) /\
     upper line = "N") \/
  (res (while_True available results stdin) = Raise EOFError /\
   rest (while_True available results stdin) = []).
Proof. apply (while_True_ends_below (S (length stdin))). lia. Qed.

Lemma display_additional_no_request (available : gset string) (results : ResultSet)
    (stdin : list string) :
  Forall (fun ev => forall url, ev <> Get url)
         (out (display_additional_currencies available results stdin)).
Proof.
  destruct (decide (available = ∅)) as [->|Hne].
  - rewrite display_additional_none. repeat constructor; discriminate.
  - destruct stdin as [|answer stdin].
    + rewrite display_additional_eof by exact Hne. repeat constructor; discriminate.
    + rewrite display_additional_line by exact Hne. cbn [out].
      constructor; [discriminate|].
      destruct (bool_decide (upper answer ∈ available)).
      * apply Forall_fmap, Forall_forall. intros l _ url. discriminate.
      * repeat constructor; discriminate.
Qed.

Lemma while_True_no_request_below (n : nat) (available : gset string)
    (results : ResultSet) :
  forall stdin, (length stdin < n)%nat ->
    Forall (fun ev => forall url, ev <> Get url)
           (out (while_True available results stdin)).
Proof.
  induction n as [|n IH]; intros stdin Hlen; [lia|].
  rewrite while_True_round.
  destruct stdin as [|choice stdin]; [repeat constructor; discriminate|].
  cbn [length] in Hlen.
  destruct (String.eqb (upper choice) "Y").
  - cbv zeta. cbn [out]. constructor; [discriminate|]. rewrite bind_run.
    pose proof (display_additional_no_request available results stdin) as Hdisp.
    pose proof (display_additional_reads available results stdin) as [_ Hrest].
    destruct (res (display_additional_currencies available results stdin));
      cbn [out]; [|exact Hdisp|exact Hdisp].
    apply Forall_app. split; [exact Hdisp|]. apply IH. lia.
  - destruct (String.eqb (upper choice) "N").
    + repeat constructor; discriminate.
    + cbv zeta. cbn [out]. constructor; [discriminate|].
      constructor; [discriminate|]. apply IH. lia.
Qed.

(** X10. In [main] every request is launched before anything is written to
    the console, and the displays and the Y/N loop launch none: the events of
    [main] are the requests of the fetch followed by console events only. *)
Theorem requests_precede_console (days : Z) (sched : list nat) (stdin : list string) :
  exists evs,
    out (main days sched stdin) = task_requests days ++ evs /\
    Forall (fun ev => forall url, ev <> Get url) evs.
Proof.
  rewrite main_run.
  destruct (join_tasks _ _ sched) as [results|e|].
  - eexists. split; [reflexivity|]. apply Forall_app. split.
    + apply Forall_fmap, Forall_forall. intros l _ url. discriminate.
    + apply (while_True_no_request_below (S (length stdin))). lia.
  - exists []. split; [cbn [out]; rewrite app_nil_r; reflexivity|constructor].
  - exists []. split; [cbn [out]; rewrite app_nil_r; reflexivity|constructor].
Qed.

(** X11. Answers that are neither accepted nor final keep the loop going with
    the same set and results: after a line other than Y or N the loop prints
    "Incorrect selection, select 'Y' or 'N'." and asks again; after Y and a
    code that is not in the set it prints "There is no such currency on the
    list." and asks again. *)
Theorem wrong_answers_keep_asking (available : gset string) (results : ResultSet)
    (choice line : string) (stdin : list string) :
  (upper choice <> "Y" -> upper choice <> "N" ->
   while_True available results (choice :: stdin) =
   Run (res (while_True available results stdin))
       (Prompt yes_no_prompt :: Print "Incorrect selection, select 'Y' or 'N'."
          :: out (while_True available results stdin))
       (rest (while_True available results stdin))) /\
  (upper choice = "Y" -> available <> ∅ -> upper line ∉ available ->
   while_True available results (choice :: line :: stdin) =
   Run (res (while_True available results stdin))
       (Prompt yes_no_prompt :: Prompt (currency_prompt available)
          :: Print "There is no such currency on the list."
          :: out (while_True available results stdin))
       (rest (while_True available results stdin))).
Proof.
  split.
  - intros HY HN. rewrite while_True_round.
    destruct (String.eqb_spec (upper choice) "Y"); [contradiction|].
    destruct (String.eqb_spec (upper choice) "N"); [contradiction|].
    reflexivity.
  - intros HY Hne Hnot. rewrite while_True_round, HY. cbn [String.eqb Ascii.eqb Bool.eqb].
    cbv zeta. rewrite bind_run, display_additional_line by exact Hne.
    rewrite bool_decide_eq_false_2 by exact Hnot. reflexivity.
Qed.

(** X12. The session does not depend on the order in which the calls
    complete: for two complete orders [main] writes the same events and
    leaves the same console input, and when every call returns the two runs
    are equal. *)
Theorem completion_order_irrelevant (days : Z) (sched1 sched2 : list nat)
    (stdin : list string) :
  sched1 ≡ₚ seq 0 (Z.to_nat days) ->
  sched2 ≡ₚ seq 0 (Z.to_nat days) ->
  out (main days sched1 stdin) = out (main days sched2 stdin) /\
  rest (main days sched1 stdin) = rest (main days sched2 stdin) /\
  ((forall i, 0 <= i < days ->
      exists v, res (get_rates (isoformat (today - i)) stdin) = Ret v) ->
   main days sched1 stdin = main days sched2 stdin).
Proof.
  intros H1 H2. rewrite !main_run.
  destruct (join_task_results days sched1 H1)
    as [(vals1 & Hvals1 & ->)|(j1 & e1 & Hj1 & Hraise1 & ->)];
  destruct (join_task_results days sched2 H2)
    as [(vals2 & Hvals2 & ->)|(j2 & e2 & Hj2 & Hraise2 & ->)].
  - assert (vals1 = vals2) as ->.
    { assert (Inj (=) (=) (@Ret RateTable)) as HI by (intros x y [= ->]; reflexivity).
      apply (inj (fmap Ret)). congruence. }
    repeat split.
  - exfalso. pose proof (task_results_lookup days j2 Hj2) as Hlook.
    rewrite Hvals1, list_lookup_fmap in Hlook.
    destruct (vals1 !! Z.to_nat j2); cbn in Hlook; congruence.
  - exfalso. pose proof (task_results_lookup days j1 Hj1) as Hlook.
    rewrite Hvals2, list_lookup_fmap in Hlook.
    destruct (vals2 !! Z.to_nat j1); cbn in Hlook; congruence.
  - split; [reflexivity|]. split; [reflexivity|].
    intros Hall. exfalso. destruct (Hall j1 Hj1) as [v Hv].
    rewrite get_rates_run in Hv. cbn [res] in Hv. unfold task_date in Hraise1. congruence.
Qed.

(** ** The layout of a rate line *)

Lemma len_app (s1 s2 : string) :
  PyStr.len (s1 +:+ s2) = (PyStr.len s1 + PyStr.len s2)%nat.
Proof.
  induction s1 as [|c s1 IH]; [reflexivity|].
  change ((if PyStr.starts_code_point c then 1 else 0) + PyStr.len (s1 +:+ s2)
          = (if PyStr.starts_code_point c then 1 else 0) + PyStr.len s1 + PyStr.len s2)%nat.
  rewrite IH. lia.
Qed.

Lemma len_spaces (n : nat) : PyStr.len (PyStr.spaces n) = n.
Proof.
  induction n as [|n IH]; [reflexivity|].
  change (S (PyStr.len (PyStr.spaces n)) = S n). rewrite IH. reflexivity.
Qed.

Lemma len_ljust (width : nat) (s : string) :
  PyStr.len (PyStr.ljust width s) = Nat.max width (PyStr.len s).
Proof. unfold PyStr.ljust. rewrite len_app, len_spaces. lia. Qed.

(** X13. A rate line is never cut: the name takes 36 columns or its own
    length if that is more, the code 4 columns or its own length, each
    followed by one space, and the rate follows.  So the columns line up
    exactly for names of at most 36 and codes of at most 4 characters. *)
Theorem format_rate_width (cur : CurrencyRate) :
  PyStr.len (format_rate cur) =
  (Nat.max 36 (PyStr.len (currency cur)) + 1 + Nat.max 4 (PyStr.len (code cur)) + 1
   + PyStr.len (str_number (mid cur)))%nat.
Proof.
  unfold format_rate. rewrite !len_app, !len_ljust.
  change (PyStr.len " ") with 1%nat. lia.
Qed.

(** ** A whole session *)

(** X14. When every call returns, [main] shows exactly what was fetched,
    whatever the completion order: it launches the requests, prints the basic
    display of the list of returned values (slot [k] being the value for
    today minus [k] days), and enters the Y/N loop with the set of the other
    codes of that list. *)
Theorem session_shows_fetched_tables (days : Z) (sched : list nat)
    (results : list RateTable) (stdin : list string) :
  sched ≡ₚ seq 0 (Z.to_nat days) ->
  length results = Z.to_nat days ->
  (forall k v, results !! k = Some v ->
     res (get_rates (isoformat (today - Z.of_nat k)) stdin) = Ret v) ->
  main days sched stdin =
  Run (res (while_True (available_codes results) results stdin))
      (task_requests days ++ (Print <$> basic_output results)
         ++ out (while_True (available_codes results) results stdin))
      (rest (while_True (available_codes results) results stdin)).
Proof.
  intros Hperm Hlen Hvals.
  assert (task_results days = Ret <$> results) as Hres.
  { apply list_eq. intros k. rewrite list_lookup_fmap.
    destruct (decide (k < Z.to_nat days)%nat) as [Hk|Hk].
    - rewrite task_results_lookup_nat by exact Hk.
      destruct (lookup_lt_is_Some_2 results k ltac:(lia)) as [v Hv].
      rewrite Hv. cbn. f_equal.
      specialize (Hvals k v Hv). rewrite get_rates_run in Hvals. exact Hvals.
    - rewrite !lookup_ge_None_2; [reflexivity|lia|rewrite task_results_length; lia]. }
  rewrite main_run, Hres, <- Hlen, gather_all_ret by (rewrite Hlen; exact Hperm).
  reflexivity.
Qed.

End Program.

(** ** The program on the concrete runtime *)

Local Abbreviation demo_get_rates := (get_rates Demo.http_get).
Local Abbreviation demo_fetch_range := (fetch_range Demo.today Demo.isoformat Demo.http_get).
Local Abbreviation demo_main :=
  (main Demo.today Demo.isoformat Demo.http_get Demo.set_order Demo.upper).
Local Abbreviation demo_program :=
  (program Demo.today Demo.isoformat Demo.http_get Demo.set_order Demo.upper Demo.int_str).
Local Abbreviation demo_basic := (display_basic_currencies Demo.today Demo.isoformat).
Local Abbreviation demo_additional :=
  (display_additional_currencies Demo.today Demo.isoformat Demo.set_order Demo.upper).
Local Abbreviation demo_while_True := (while_True Demo.today Demo.isoformat Demo.set_order Demo.upper).

(** Three days asked on Saturday 2024-03-02, the calls completing in the
    order 1, 0, 2; then "y", the code "gbp", and "n". *)
Example three_days_session :
  demo_program [1; 0; 2]%nat ["3"; "y"; "gbp"; "n"] =
  Run (Ret tt)
      [Prompt "Enter the number of days (maximum 10):";
       Get "https://api.nbp.pl/api/exchangerates/tables/a/2024-03-02?format=json";
       Get "https://api.nbp.pl/api/exchangerates/tables/a/2024-03-01?format=json";
       Get "https://api.nbp.pl/api/exchangerates/tables/a/2024-02-29?format=json";
       Print "Data as of day 2024-03-02:"; Print "No data."; Print "";
       Print "Data as of day 2024-03-01:";
       Print "dolar amerykański                    USD  4";
       Print "euro                                 EUR  4.3";
       Print "";
       Print "Data as of day 2024-02-29:";
       Print "dolar amerykański                    USD  4";
       Print "euro                                 EUR  4.3";
       Print "";
       Prompt "Do you want to see rates for other currencies? (Y/N):";
       Prompt "Enter the currency abbreviation (available: GBP, CHF): ";
       Print "Data as of day 2024-03-02:"; Print "No data."; Print "";
       Print "Data as of day 2024-03-01:";
       Print "funt szterling                       GBP  5.0451";
       Print "";
       Print "Data as of day 2024-02-29:";
       Print "funt szterling                       GBP  5.0451";
       Print "";
       Prompt "Do you want to see rates for other currencies? (Y/N):"]
      [].
Proof. vm_compute. reflexivity. Qed.

Example parse_int_examples :
  Demo.parse_int <$> [" 12 "; "-3"; "+1_0"; "007"; "1__0"; "_1"; "1_"; ""; "abc"; "1.5"]
  = [Some 12; Some (-3); Some 10; Some 7; None; None; None; None; None; None]%Z.
Proof. vm_compute. reflexivity. Qed.

Lemma demo_schedule : [2; 0; 1]%nat ≡ₚ seq 0 (Z.to_nat 3).
Proof.
  change (seq 0 (Z.to_nat 3)) with [0; 1; 2]%nat.
  etrans; [apply perm_swap|]. apply perm_skip, perm_swap.
Defined.

Lemma demo_schedule_four : [3; 1; 0; 2]%nat ≡ₚ seq 0 (Z.to_nat 4).
Proof.
  change (seq 0 (Z.to_nat 4)) with [0; 1; 2; 3]%nat.
  etrans; [apply perm_swap|].
  etrans; [apply perm_skip, perm_swap|].
  etrans; [apply perm_skip, perm_skip, perm_swap|].
  apply perm_swap.
Defined.

Lemma fetch_range_request_order_witness :
  (1 <= 3 <= 10)%Z /\
  [2; 0; 1]%nat ≡ₚ seq 0 (Z.to_nat 3) /\
  ((forall i, (0 <= i < 3)%Z ->
      exists v, res (demo_get_rates (Demo.isoformat (Demo.today - i)) []) = Ret v) ->
   exists results, res (demo_fetch_range 3%Z [2; 0; 1]%nat []) = Ret results) /\
  (forall results,
      res (demo_fetch_range 3%Z [2; 0; 1]%nat []) = Ret results ->
      length results = Z.to_nat 3 /\
      forall i, (0 <= i < 3)%Z ->
        exists v, results !! Z.to_nat i = Some v /\
                  res (demo_get_rates (Demo.isoformat (Demo.today - i)) []) = Ret v).
Proof.
  split; [lia|]. split; [exact demo_schedule|].
  apply (fetch_range_request_order Demo.today Demo.isoformat Demo.http_get
           3%Z [2; 0; 1]%nat []); [lia|exact demo_schedule].
Defined.

Lemma get_rates_by_status_witness :
  Demo.http_get (rates_url "2024-03-01") = inr (mkResponse 200 (inr Demo.table_a)) /\
  res (demo_get_rates "2024-03-01" []) = Ret (Some Demo.table_a).
Proof.
  split; [reflexivity|].
  apply (proj1 (get_rates_by_status Demo.http_get "2024-03-01" []
                  (mkResponse 200 (inr Demo.table_a)) eq_refl)).
  reflexivity.
Defined.

(** C3 fails as stated: an absent slot and a present slot holding an empty
    list give the same output, in the basic display and in the additional
    display. *)
Lemma absent_slot_printed_as_empty_slot :
  out (demo_basic [None] []) =
    [Print "Data as of day 2024-03-02:"; Print "No data."; Print ""] /\
  out (demo_basic [Some []] []) =
    [Print "Data as of day 2024-03-02:"; Print "No data."; Print ""] /\
  out (demo_additional {["GBP"]} [None] ["GBP"]) =
    [Prompt "Enter the currency abbreviation (available: GBP): ";
     Print "Data as of day 2024-03-02:"; Print "No data."; Print ""] /\
  out (demo_additional {["GBP"]} [Some []] ["GBP"]) =
    [Prompt "Enter the currency abbreviation (available: GBP): ";
     Print "Data as of day 2024-03-02:"; Print "No data."; Print ""].
Proof. repeat split; vm_compute; reflexivity. Qed.

Lemma absent_and_empty_slots_witness :
  Demo.upper "gbp" ∈ ({["GBP"]} : gset string) /\
  out (demo_additional {["GBP"]} [None] ["gbp"]) <>
  out (demo_additional {["GBP"]} [Some [mkTable []]] ["gbp"]).
Proof.
  assert (Demo.upper "gbp" ∈ ({["GBP"]} : gset string)) as Hin.
  { apply elem_of_singleton_2. reflexivity. }
  split; [exact Hin|].
  exact (proj2 (proj2 (proj2
           (absent_and_empty_slots Demo.today Demo.isoformat Demo.set_order Demo.upper
              {["GBP"]} [] [] "gbp" []))) Hin (mkTable []) []).
Defined.

Lemma demo_set_has_GBP : "GBP" ∈ ({["GBP"; "CHF"]} : gset string).
Proof. apply elem_of_union. left. apply elem_of_singleton. reflexivity. Defined.

Lemma demo_set_has_CHF : "CHF" ∈ ({["GBP"; "CHF"]} : gset string).
Proof. apply elem_of_union. right. apply elem_of_singleton. reflexivity. Defined.

Lemma demo_set_lacks_PLN : "PLN" ∉ ({["GBP"; "CHF"]} : gset string).
Proof.
  intros H. apply elem_of_union in H as [H|H];
    apply elem_of_singleton in H; discriminate H.
Defined.

Lemma demo_set_not_empty : ({["GBP"; "CHF"]} : gset string) <> ∅.
Proof.
  intros H. apply (not_elem_of_empty (C := gset string) "GBP").
  rewrite <- H. exact demo_set_has_GBP.
Defined.

Lemma display_additional_prints_witness :
  (({["GBP"; "CHF"]} : gset string) <> ∅) /\
  (Demo.upper "pln" ∉ ({["GBP"; "CHF"]} : gset string)) /\
  (Demo.upper "chf" ∈ ({["GBP"; "CHF"]} : gset string)) /\
  demo_additional {["GBP"; "CHF"]} [Some Demo.table_a; None] ["pln"] =
    Run (Ret tt)
        [Prompt (currency_prompt Demo.set_order {["GBP"; "CHF"]});
         Print "There is no such currency on the list."]
        [] /\
  demo_additional {["GBP"; "CHF"]} [Some Demo.table_a; None] ["chf"] =
    Run (Ret tt)
        (Prompt (currency_prompt Demo.set_order {["GBP"; "CHF"]}) ::
           (Print <$> concat (imap (additional_day Demo.today Demo.isoformat (Demo.upper "chf"))
                                   [Some Demo.table_a; None])))
        [].
Proof.
  split; [exact demo_set_not_empty|]. split; [exact demo_set_lacks_PLN|].
  split; [exact demo_set_has_CHF|]. split.
  - exact (proj1 (proj2
             (display_additional_prints Demo.today Demo.isoformat Demo.set_order Demo.upper
                {["GBP"; "CHF"]} [Some Demo.table_a; None] "pln" []))
             demo_set_not_empty demo_set_lacks_PLN).
  - exact (proj1 (proj2 (proj2
             (display_additional_prints Demo.today Demo.isoformat Demo.set_order Demo.upper
                {["GBP"; "CHF"]} [Some Demo.table_a; None] "chf" [])))
             demo_set_has_CHF).
Defined.

Lemma failed_call_fails_run_witness :
  [3; 1; 0; 2]%nat ≡ₚ seq 0 (Z.to_nat 4) /\
  (0 <= 3 < 4)%Z /\
  res (demo_get_rates (Demo.isoformat (Demo.today - 3)) []) =
    Raise (RuntimeError "Data download error: 500") /\
  exists j e',
    (0 <= j < 4)%Z /\
    res (demo_get_rates (Demo.isoformat (Demo.today - j)) []) = Raise e' /\
    demo_fetch_range 4%Z [3; 1; 0; 2]%nat [] =
      Run (Raise e') (task_requests Demo.today Demo.isoformat 4) [] /\
    demo_main 4%Z [3; 1; 0; 2]%nat [] =
      Run (Raise e') (task_requests Demo.today Demo.isoformat 4) [] /\
    Forall (fun ev => exists url, ev = Get url) (out (demo_main 4%Z [3; 1; 0; 2]%nat [])).
Proof.
  split; [exact demo_schedule_four|]. split; [lia|]. split; [reflexivity|].
  apply (failed_call_fails_run Demo.today Demo.isoformat Demo.http_get Demo.set_order Demo.upper
           4%Z [3; 1; 0; 2]%nat [] 3%Z (RuntimeError "Data download error: 500"));
    [exact demo_schedule_four|lia|reflexivity].
Defined.

Lemma invalid_days_no_fetch_witness :
  (exists msg, Demo.int_str "eleven" = inl msg) /\
  (exists days, Demo.int_str "11" = inr days /\ (10 < days)%Z) /\
  demo_program [] ["eleven"; "y"] =
    Run (Ret tt)
        [Prompt "Enter the number of days (maximum 10):";
         Print "Error: invalid literal for int() with base 10: 'eleven'"]
        ["y"] /\
  demo_program [] ["11"; "y"] =
    Run (Ret tt)
        [Prompt "Enter the number of days (maximum 10):";
         Print "Error: The number of days cannot be more than 10"]
        ["y"].
Proof.
  assert (exists msg, Demo.int_str "eleven" = inl msg) as Hbad.
  { eexists. reflexivity. }
  assert (exists days, Demo.int_str "11" = inr days /\ (10 < days)%Z) as Hbig.
  { exists 11%Z. split; [reflexivity|lia]. }
  split; [exact Hbad|]. split; [exact Hbig|]. split.
  - apply (invalid_days_no_fetch Demo.today Demo.isoformat Demo.http_get Demo.set_order
             Demo.upper Demo.int_str [] "eleven" ["y"]).
    left. exact Hbad.
  - apply (invalid_days_no_fetch Demo.today Demo.isoformat Demo.http_get Demo.set_order
             Demo.upper Demo.int_str [] "11" ["y"]).
    right. exact Hbig.
Defined.

Lemma demo_upper_ascii (s : string) :
  PyStr.is_ascii s = true -> Demo.upper s = PyStr.ascii_upper s.
Proof. intros _. reflexivity. Defined.

Lemma answers_ignore_case_witness :
  PyStr.is_ascii "Gbp" = true /\
  PyStr.ascii_upper "Gbp" ∈ ({["GBP"; "CHF"]} : gset string) /\
  demo_while_True {["GBP"; "CHF"]} [Some Demo.table_a] ["y"; "Gbp"; "n"] =
    demo_while_True {["GBP"; "CHF"]} [Some Demo.table_a] ["Y"; "Gbp"; "n"] /\
  demo_additional {["GBP"; "CHF"]} [Some Demo.table_a] ["Gbp"] =
    demo_additional {["GBP"; "CHF"]} [Some Demo.table_a] ["GBP"] /\
  demo_additional {["GBP"; "CHF"]} [Some Demo.table_a] ["gbp"] =
    demo_additional {["GBP"; "CHF"]} [Some Demo.table_a] ["GBP"].
Proof.
  pose proof (answers_ignore_case Demo.today Demo.isoformat Demo.set_order Demo.upper
                {["GBP"; "CHF"]} [Some Demo.table_a] ["Gbp"; "n"] demo_upper_ascii)
    as (_ & HyY & _).
  pose proof (answers_ignore_case Demo.today Demo.isoformat Demo.set_order Demo.upper
                {["GBP"; "CHF"]} [Some Demo.table_a] [] demo_upper_ascii)
    as (_ & _ & _ & _ & _ & _ & Hcode & Hgbp).
  split; [reflexivity|]. split; [exact demo_set_has_GBP|]. split; [exact HyY|]. split.
  - exact (proj1 (Hcode "Gbp" eq_refl demo_set_has_GBP)).
  - exact (proj1 (Hgbp demo_set_has_GBP)).
Defined.

Lemma nonpositive_days_run_witness :
  Demo.int_str "-2" = inr (-2)%Z /\
  (-2 <= 0)%Z /\
  demo_fetch_range (-2)%Z [] ["n"] = Run (Ret []) [] ["n"] /\
  demo_program [] ["-2"; "n"] =
    Run (res (demo_while_True ∅ [] ["n"]))
        (Prompt days_prompt :: Print "No data available." :: out (demo_while_True ∅ [] ["n"]))
        (rest (demo_while_True ∅ [] ["n"])).
Proof.
  split; [reflexivity|]. split; [lia|].
  pose proof (nonpositive_days_run Demo.today Demo.isoformat Demo.http_get Demo.set_order
                Demo.upper Demo.int_str [] "-2" (-2)%Z ["n"] eq_refl ltac:(lia))
    as (Hfetch & Hrun & _).
  split; [exact Hfetch|exact Hrun].
Defined.

(** A store that holds the ResultSet [[None; Some [usd; gbp]]]. *)
Lemma demo_objects_hold :
  holds_results Demo.objects (VRef 0) [None; Some [mkTable [Demo.usd; Demo.gbp]]].
Proof.
  exists 0%nat, [VNone; VRef 1]. split; [reflexivity|]. split; [reflexivity|].
  constructor; [reflexivity|]. constructor; [|constructor].
  exists 1%nat, [VRef 2]. split; [reflexivity|]. split; [reflexivity|].
  constructor; [|constructor].
  exists 2%nat, (VRef 3), 3%nat, [VRef 4; VRef 5].
  split; [reflexivity|]. split; [reflexivity|]. split; [reflexivity|].
  split; [reflexivity|].
  constructor; [exists 4%nat; split; reflexivity|].
  constructor; [exists 5%nat; split; reflexivity|constructor].
Defined.

Lemma display_basic_twice_same_objects_witness :
  holds_results Demo.objects (VRef 0) [None; Some [mkTable [Demo.usd; Demo.gbp]]] /\
  sheap (display_basic_currencies_obj Demo.today Demo.isoformat (VRef 0) Demo.objects) =
    Demo.objects /\
  sout (display_basic_currencies_obj Demo.today Demo.isoformat (VRef 0)
          (sheap (display_basic_currencies_obj Demo.today Demo.isoformat (VRef 0)
                    Demo.objects))) =
    sout (display_basic_currencies_obj Demo.today Demo.isoformat (VRef 0) Demo.objects).
Proof.
  split; [exact demo_objects_hold|].
  pose proof (display_basic_twice_same_objects Demo.today Demo.isoformat Demo.objects
                (VRef 0) [None; Some [mkTable [Demo.usd; Demo.gbp]]] demo_objects_hold)
    as (Hheap & _ & Hout & _).
  split; [exact Hheap|exact Hout].
Defined.

(** The output on that store, and what a write to the list changes: once the
    list object is emptied the same call prints "No data available.". *)
Example display_on_objects :
  sout (display_basic_currencies_obj Demo.today Demo.isoformat (VRef 0) Demo.objects) =
    [Print "Data as of day 2024-03-02:"; Print "No data."; Print "";
     Print "Data as of day 2024-03-01:";
     Print "dolar amerykański                    USD  4";
     Print ""] /\
  sout ((store 0 (OList []) ;;;
         display_basic_currencies_obj Demo.today Demo.isoformat (VRef 0)) Demo.objects) =
    [Print "No data available."].
Proof. split; vm_compute; reflexivity. Qed.

(** ** Further runs on the concrete runtime *)

Lemma basic_codes_not_offered_witness :
  (Demo.upper "eur" = "EUR" \/ Demo.upper "eur" = "USD") /\
  ((available_codes [Some Demo.table_a] = ∅ /\
    demo_additional (available_codes [Some Demo.table_a]) [Some Demo.table_a] ["eur"] =
    Run (Ret tt) [Print "No additional currencies available."] ["eur"]) \/
   (available_codes [Some Demo.table_a] <> ∅ /\
    demo_additional (available_codes [Some Demo.table_a]) [Some Demo.table_a] ["eur"] =
    Run (Ret tt)
        [Prompt (currency_prompt Demo.set_order (available_codes [Some Demo.table_a]));
         Print "There is no such currency on the list."]
        [])).
Proof.
  split; [left; reflexivity|].
  apply (basic_codes_not_offered Demo.today Demo.isoformat Demo.set_order Demo.upper
           [Some Demo.table_a] "eur" []).
  left. reflexivity.
Defined.



Lemma first_failure_is_raised_witness :
  (3 < Z.to_nat 4)%nat /\
  res (demo_get_rates (Demo.isoformat (Demo.today - Z.of_nat 3)) []) =
    Raise (RuntimeError "Data download error: 500") /\
  demo_fetch_range 4%Z ([1; 0] ++ 3 :: [2])%nat [] =
    Run (Raise (RuntimeError "Data download error: 500"))
        (task_requests Demo.today Demo.isoformat 4) [] /\
  demo_main 4%Z ([1; 0] ++ 3 :: [2])%nat [] =
    Run (Raise (RuntimeError "Data download error: 500"))
        (task_requests Demo.today Demo.isoformat 4) [].
Proof.
  split; [cbn; lia|]. split; [reflexivity|].
  apply (first_failure_is_raised Demo.today Demo.isoformat Demo.http_get Demo.set_order Demo.upper
           4%Z [1; 0]%nat [2]%nat 3%nat [] (RuntimeError "Data download error: 500")).
  - cbn. lia.
  - reflexivity.
  - intros j e' Hj.
    apply elem_of_cons in Hj as [->|Hj]; [vm_compute; discriminate|].
    apply elem_of_cons in Hj as [->|Hj]; [vm_compute; discriminate|].
    inversion Hj.
Defined.

Lemma get_rates_single_request_witness :
  res (get_rates (fun _ => inl (ClientError "Cannot connect to host api.nbp.pl:443"))
         "2024-03-01" ["n"]) =
  Raise (ClientError "Cannot connect to host api.nbp.pl:443").
Proof.
  exact (proj2 (proj2
           (get_rates_single_request
              (fun _ => inl (ClientError "Cannot connect to host api.nbp.pl:443"))
              "2024-03-01" ["n"]))
           (ClientError "Cannot connect to host api.nbp.pl:443") eq_refl).
Defined.

Lemma accepted_days_run_main_witness :
  Demo.int_str "1" = inr 1%Z /\
  (1 <= 10)%Z /\
  res (program Demo.today Demo.isoformat
         (fun _ => inr (mkResponse 200 (inl (ValueError "Expecting value"))))
         Demo.set_order Demo.upper Demo.int_str [0]%nat ["1"; "n"]) =
  Raise (ValueError "Expecting value").
Proof.
  split; [reflexivity|]. split; [lia|].
  apply (proj2
           (accepted_days_run_main Demo.today Demo.isoformat
              (fun _ => inr (mkResponse 200 (inl (ValueError "Expecting value"))))
              Demo.set_order Demo.upper Demo.int_str [0]%nat "1" 1%Z ["n"]
              eq_refl ltac:(lia))).
  reflexivity.
Defined.

Lemma wrong_answers_keep_asking_witness :
  Demo.upper "maybe" <> "Y" /\
  Demo.upper "maybe" <> "N" /\
  demo_while_True {["GBP"; "CHF"]} [Some Demo.table_a] ["maybe"; "n"] =
    Run (res (demo_while_True {["GBP"; "CHF"]} [Some Demo.table_a] ["n"]))
        (Prompt yes_no_prompt :: Print "Incorrect selection, select 'Y' or 'N'."
           :: out (demo_while_True {["GBP"; "CHF"]} [Some Demo.table_a] ["n"]))
        (rest (demo_while_True {["GBP"; "CHF"]} [Some Demo.table_a] ["n"])) /\
  demo_while_True {["GBP"; "CHF"]} [Some Demo.table_a] ["y"; "pln"; "n"] =
    Run (res (demo_while_True {["GBP"; "CHF"]} [Some Demo.table_a] ["n"]))
        (Prompt yes_no_prompt :: Prompt (currency_prompt Demo.set_order {["GBP"; "CHF"]})
           :: Print "There is no such currency on the list."
           :: out (demo_while_True {["GBP"; "CHF"]} [Some Demo.table_a] ["n"]))
        (rest (demo_while_True {["GBP"; "CHF"]} [Some Demo.table_a] ["n"])).
Proof.
  split; [discriminate|]. split; [discriminate|]. split.
  - apply (proj1
             (wrong_answers_keep_asking Demo.today Demo.isoformat Demo.set_order Demo.upper
                {["GBP"; "CHF"]} [Some Demo.table_a] "maybe" "" ["n"])); discriminate.
  - exact (proj2
             (wrong_answers_keep_asking Demo.today Demo.isoformat Demo.set_order Demo.upper
                {["GBP"; "CHF"]} [Some Demo.table_a] "y" "pln" ["n"])
             eq_refl demo_set_not_empty demo_set_lacks_PLN).
Defined.

Lemma demo_calls_return (i : Z) :
  (0 <= i < 3)%Z ->
  exists v, res (demo_get_rates (Demo.isoformat (Demo.today - i)) ["n"]) = Ret v.
Proof.
  intros Hi. assert (i = 0 \/ i = 1 \/ i = 2)%Z as [Hi0 | [Hi1 | Hi2]] by lia;
    subst i; eexists; reflexivity.
Defined.

Lemma completion_order_irrelevant_witness :
  [2; 0; 1]%nat ≡ₚ seq 0 (Z.to_nat 3) /\
  [0; 1; 2]%nat ≡ₚ seq 0 (Z.to_nat 3) /\
  demo_main 3%Z [2; 0; 1]%nat ["n"] = demo_main 3%Z [0; 1; 2]%nat ["n"].
Proof.
  split; [exact demo_schedule|]. split; [reflexivity|].
  apply (proj2 (proj2
           (completion_order_irrelevant Demo.today Demo.isoformat Demo.http_get
              Demo.set_order Demo.upper 3%Z [2; 0; 1]%nat [0; 1; 2]%nat ["n"]
              demo_schedule (reflexivity _)))).
  exact demo_calls_return.
Defined.

Lemma demo_fetched (k : nat) (v : RateTable) :
  [None; Some Demo.table_a; Some Demo.table_a] !! k = Some v ->
  res (demo_get_rates (Demo.isoformat (Demo.today - Z.of_nat k)) ["n"]) = Ret v.
Proof.
  destruct k as [|[|[|k]]]; cbn; intros H; [| | |discriminate H];
    injection H as <-; reflexivity.
Defined.

Lemma session_shows_fetched_tables_witness :
  [2; 0; 1]%nat ≡ₚ seq 0 (Z.to_nat 3) /\
  length [None; Some Demo.table_a; Some Demo.table_a] = Z.to_nat 3 /\
  demo_main 3%Z [2; 0; 1]%nat ["n"] =
  Run (res (demo_while_True (available_codes [None; Some Demo.table_a; Some Demo.table_a])
              [None; Some Demo.table_a; Some Demo.table_a] ["n"]))
      (task_requests Demo.today Demo.isoformat 3
         ++ (Print <$> basic_output Demo.today Demo.isoformat
                         [None; Some Demo.table_a; Some Demo.table_a])
         ++ out (demo_while_True (available_codes [None; Some Demo.table_a; Some Demo.table_a])
                   [None; Some Demo.table_a; Some Demo.table_a] ["n"]))
      (rest (demo_while_True (available_codes [None; Some Demo.table_a; Some Demo.table_a])
               [None; Some Demo.table_a; Some Demo.table_a] ["n"])).
Proof.
  split; [exact demo_schedule|]. split; [reflexivity|].
  apply (session_shows_fetched_tables Demo.today Demo.isoformat Demo.http_get
           Demo.set_order Demo.upper 3%Z [2; 0; 1]%nat
           [None; Some Demo.table_a; Some Demo.table_a] ["n"]
           demo_schedule eq_refl demo_fetched).
Defined.
